(** * YOLO11 web front end: the upload handler of [flask/app.py]

    A shallow embedding of the request flow of [flask/app.py]: the file
    validator [allowed_file], the video pipeline [process_video] and the
    request handler [upload_file].

    Python strings are [string]s; [str.lower] is modelled on the ASCII
    letters (the allow-lists are ASCII).  Python [int]s are [Z].  Floats
    are never inspected by the handler and are carried by their bit
    pattern.  Dictionaries of the configuration and of the detector are
    [gmap]s, the set of detected class names is a [gset], and dictionaries
    that are serialised to JSON are association lists in insertion order.

    The detector (ultralytics), OpenCV, the uuid generator and the file
    upload object are external: their outcomes are fields of an
    environment record [env], and every call made in a [try] body may
    raise.  The calls of the [finally] blocks ([release],
    [destroyAllWindows]), [os.path.exists], [os.remove] and the logger are
    total operations on the world. *)

From Stdlib Require Import ZArith Lia Ascii String DecimalString.
From stdpp Require Import base option list gmap strings.

Local Open Scope Z_scope.
Set Warnings "-register-all".

(** ** Python strings *)

Module PyStr.

(** [str.lower] on one character. *)
Definition lower_ascii (c : ascii) : ascii :=
  let n := Ascii.N_of_ascii c in
  if ((65 <=? n) && (n <=? 90))%N then Ascii.ascii_of_N (n + 32) else c.

(** [s.lower()] *)
Fixpoint lower (s : string) : string :=
  match s with
  | EmptyString => EmptyString
  | String c s' => String (lower_ascii c) (lower s')
  end.

(** [c in s] for a single character [c]. *)
Fixpoint contains (c : ascii) (s : string) : bool :=
  match s with
  | EmptyString => false
  | String d s' => if Ascii.eqb d c then true else contains c s'
  end.

(** The cut of [s] at the last occurrence of [sep], when there is one. *)
Fixpoint rcut (sep : ascii) (s : string) : option (string * string) :=
  match s with
  | EmptyString => None
  | String c s' =>
      match rcut sep s' with
      | Some (pre, suf) => Some (String c pre, suf)
      | None => if Ascii.eqb c sep then Some (EmptyString, s') else None
      end
  end.

(** [s.rsplit(sep, 1)]: at most one split, made at the last separator. *)
Definition rsplit1 (sep : ascii) (s : string) : list string :=
  match rcut sep s with
  | Some (pre, suf) => [pre; suf]
  | None => [s]
  end.

(** [str(n)] for an [int]. *)
Definition of_int (n : Z) : string := NilZero.string_of_int (Z.to_int n).

(** [repr(s)] for a string without quotes or escapes. *)
Definition repr (s : string) : string := "'" +:+ s +:+ "'".

(** [s.startswith(c)] for a single character. *)
Definition starts_with (c : ascii) (s : string) : bool :=
  match s with
  | String d _ => Ascii.eqb d c
  | EmptyString => false
  end.

(** The last character of [s] is [c]. *)
Fixpoint ends_with (c : ascii) (s : string) : bool :=
  match s with
  | EmptyString => false
  | String d EmptyString => Ascii.eqb d c
  | String _ s' => ends_with c s'
  end.

End PyStr.

(** ** Outcomes of Python calls *)

(** The exceptions the handler can see.  A [KeyError] carries the [repr]
    of the missing key, which is its [str(e)].  [ExtError] is any
    exception raised by an external call (cv2.error, OSError,
    RuntimeError, ...), carried by its message [str(e)]. *)
Inductive exn : Type :=
| KeyError (key_repr : string)
| IndexError (msg : string)
| TypeError (msg : string)
| ExtError (msg : string).

(** [str(e)] *)
Definition str_exn (e : exn) : string :=
  match e with
  | KeyError r => r
  | IndexError m => m
  | TypeError m => m
  | ExtError m => m
  end.

Inductive outcome (A : Type) : Type :=
| Ok (a : A)
| Raise (e : exn).
Arguments Ok {A} a.
Arguments Raise {A} e.

Definition is_raise {A} (o : outcome A) : bool :=
  match o with Raise _ => true | Ok _ => false end.

(** ** Configuration *)

Definition UPLOAD_FOLDER : string := "static/uploads".
Definition RESULT_FOLDER : string := "static/results".

Definition IMAGE_EXTENSIONS : gset string := {[ "png"; "jpg"; "jpeg" ]}.
Definition VIDEO_EXTENSIONS : gset string := {[ "mp4"; "mov"; "avi"; "webm" ]}.

(** [app.config['ALLOWED_EXTENSIONS']] *)
Definition ALLOWED_EXTENSIONS : gmap string (gset string) :=
  {[ "image" := IMAGE_EXTENSIONS; "video" := VIDEO_EXTENSIONS ]}.

(** [d[k]] on a dictionary with string keys. *)
Definition subscript {V} (d : gmap string V) (k : string) : outcome V :=
  match d !! k with
  | Some v => Ok v
  | None => Raise (KeyError (PyStr.repr k))
  end.

(** [l[i]] on a list. *)
Definition index {A} (l : list A) (i : nat) : outcome A :=
  match l !! i with
  | Some a => Ok a
  | None => Raise (IndexError "list index out of range")
  end.

(** ** File validator *)

(** [allowed_file(filename, mode)]:
    ['.' in filename and
     filename.rsplit('.', 1)[1].lower() in app.config['ALLOWED_EXTENSIONS'][mode]].
    The right operand of [and] is evaluated only when the left one holds;
    in it the subscript of the configuration by [mode] raises [KeyError]
    for a mode that has no allow-list. *)
Definition allowed_file (filename mode : string) : outcome bool :=
  if PyStr.contains "." filename then
    match index (PyStr.rsplit1 "." filename) 1 with
    | Raise e => Raise e
    | Ok suffix =>
        let ext := PyStr.lower suffix in
        match subscript ALLOWED_EXTENSIONS mode with
        | Raise e => Raise e
        | Ok exts => Ok (bool_decide (ext ∈ exts))
        end
    end
  else Ok false.

(** ** Python values *)

(** A float, carried by the bit pattern of its IEEE-754 double. *)
Record pyfloat : Type := Float { float_bits : Z }.

(** A raw byte buffer: file contents, and the pixel buffer of an image
    array. *)
Definition bytes : Type := list Byte.byte.

(** The values the handler builds and passes to [jsonify]; a [VDict] keeps
    its items in insertion order. *)
Inductive pyval : Type :=
| VBool (b : bool)
| VStr (s : string)
| VFloat (f : pyfloat)
| VList (l : list pyval)
| VDict (items : list (string * pyval)).

(** The value bound to [k] in a list of items. *)
Fixpoint assoc (k : string) (items : list (string * pyval)) : option pyval :=
  match items with
  | [] => None
  | (k', v) :: rest => if String.eqb k' k then Some v else assoc k rest
  end.

(** [v[k]] for a string key [k]. *)
Definition getitem (v : pyval) (k : string) : outcome pyval :=
  match v with
  | VDict items =>
      match assoc k items with
      | Some x => Ok x
      | None => Raise (KeyError (PyStr.repr k))
      end
  | VBool _ => Raise (TypeError "'bool' object is not subscriptable")
  | VFloat _ => Raise (TypeError "'float' object is not subscriptable")
  | VStr _ => Raise (TypeError "string indices must be integers, not 'str'")
  | VList _ => Raise (TypeError "list indices must be integers or slices, not str")
  end.

(** The value reached from [v] by a path of keys, when every step is a
    dictionary that has the key. *)
Fixpoint dig (path : list string) (v : pyval) : option pyval :=
  match path with
  | [] => Some v
  | k :: rest =>
      match v with
      | VDict items =>
          match assoc k items with
          | Some x => dig rest x
          | None => None
          end
      | _ => None
      end
  end.

(** ** The world: file system, log and open video handles *)

Inductive log_entry : Type :=
| LogError (msg : string)       (* app.logger.error(msg) *)
| LogTraceback (e : exn).       (* app.logger.error(traceback.format_exc()) *)

Record world : Type := World {
  fs : gmap string bytes;       (* path to contents *)
  log : list log_entry;         (* oldest first *)
  handles : nat                 (* capture and writer handles not yet released *)
}.

Definition set_fs (f : gmap string bytes -> gmap string bytes) (w : world) : world :=
  {| fs := f (fs w); log := log w; handles := handles w |}.

Definition logger_error (entry : log_entry) (w : world) : world :=
  {| fs := fs w; log := log w ++ [entry]; handles := handles w |}.

Definition acquire (w : world) : world :=
  {| fs := fs w; log := log w; handles := S (handles w) |}.

(** [handle.release()] *)
Definition release (w : world) : world :=
  {| fs := fs w; log := log w; handles := Nat.pred (handles w) |}.

(** [cv2.destroyAllWindows()]: the handler opens no window. *)
Definition destroyAllWindows (w : world) : world := w.

(** [os.path.exists(path)] *)
Definition os_path_exists (path : string) (w : world) : bool :=
  bool_decide (is_Some (fs w !! path)).

(** [os.remove(path)] on an existing file. *)
Definition os_remove (path : string) (w : world) : world :=
  set_fs (delete path) w.

(** [os.path.join(a, b)] (posix). *)
Definition os_path_join (a b : string) : string :=
  if PyStr.starts_with "/" b then b
  else if String.eqb a "" || PyStr.ends_with "/" a then a +:+ b
  else a +:+ "/" +:+ b.

(** ** State and exceptions *)

(** A computation over a state [S] that returns or raises. *)
Definition M (S A : Type) : Type := S -> outcome A * S.

Definition ret {S A} (a : A) : M S A := fun s => (Ok a, s).

Definition raise {S A} (e : exn) : M S A := fun s => (Raise e, s).

Definition bind {S A B} (m : M S A) (k : A -> M S B) : M S B :=
  fun s =>
    match m s with
    | (Ok a, s') => k a s'
    | (Raise e, s') => (Raise e, s')
    end.

Notation "x <~ m ;; k" := (bind m (fun x => k))
  (at level 100, m at next level, right associativity).
Notation "m ;;; k" := (bind m (fun _ => k))
  (at level 100, right associativity).

(** The outcome of a call that has no effect on the state. *)
Definition lift {S A} (o : outcome A) : M S A := fun s => (o, s).

(** A total effect on the state. *)
Definition effect {S} (f : S -> S) : M S unit := fun s => (Ok tt, f s).

(** A total observation of the state. *)
Definition observe {S A} (f : S -> A) : M S A := fun s => (Ok (f s), s).

(** [try: m  except Exception as e: h e] *)
Definition try_except {S A} (m : M S A) (h : exn -> M S A) : M S A :=
  fun s =>
    match m s with
    | (Ok a, s') => (Ok a, s')
    | (Raise e, s') => h e s'
    end.

(** [try: m  finally: c] for a cleanup [c] that does not raise. *)
Definition try_finally {S A} (m : M S A) (c : S -> S) : M S A :=
  fun s => let '(r, s') := m s in (r, c s').

(** Unfolding of the combinators, for the proofs. *)
Ltac run :=
  unfold bind, lift, ret, raise, effect, observe, try_except, try_finally in *;
  simpl in *.

(** Case analysis on the next outcome a computation in [H] waits for. *)
Ltac next_outcome H :=
  match type of H with
  | context [match ?o with Ok _ => _ | Raise _ => _ end] =>
      let Ho := fresh "Ho" in destruct o eqn:Ho; simpl in H
  end.

(** ** The external collaborators *)

(** An image array ([numpy.ndarray]), carried by its pixel buffer. *)
Definition ndarray : Type := bytes.

(** One detected box; [cls] is [int(box.cls)]. *)
Record box : Type := Box { cls : Z }.

(** One element of what the detector returns. *)
Record results : Type := Results {
  boxes : list box;               (* .boxes *)
  names : gmap Z string;          (* .names, class index to name *)
  speed : gmap string pyfloat;    (* .speed *)
  orig_shape : Z * Z;             (* .orig_shape = (height, width) *)
  plot : outcome ndarray          (* .plot() *)
}.

(** An opened [cv2.VideoCapture]. *)
Record capture : Type := Capture {
  cap_fps : outcome pyfloat;      (* cap.get(cv2.CAP_PROP_FPS) *)
  cap_width : outcome Z;          (* int(cap.get(cv2.CAP_PROP_FRAME_WIDTH)) *)
  cap_height : outcome Z;         (* int(cap.get(cv2.CAP_PROP_FRAME_HEIGHT)) *)
  cap_frames : list (outcome ndarray)
    (* the successive [cap.read()] calls that return a frame or raise;
       the call after the last one returns [(False, None)] *)
}.

Record env : Type := Env {
  uuid4 : string;
    (* str(uuid.uuid4()) *)
  save_error : option exn;
    (* whether file.save(path) raises *)
  model_file : option bytes -> outcome (list results);
    (* model(path), from the contents of the file at [path] *)
  model_frame : ndarray -> outcome (list results);
    (* model(frame) *)
  cv_imwrite : string -> ndarray -> outcome (option bytes);
    (* cv2.imwrite(path, img): the encoded file when it returns True,
       [None] when it returns False and writes nothing *)
  cv_VideoCapture : option bytes -> outcome capture;
    (* cv2.VideoCapture(path), from the contents of the file at [path] *)
  cv_VideoWriter : string -> pyfloat -> Z * Z -> outcome unit;
    (* cv2.VideoWriter(path, fourcc, fps, frame_size) for the avc1 codec *)
  cv_write : ndarray -> outcome bytes
    (* out.write(img): the encoded frame appended to the file *)
}.

(** [d[k]] on the detector's dictionary of class names. *)
Definition subscript_int {V} (d : gmap Z V) (k : Z) : outcome V :=
  match d !! k with
  | Some v => Ok v
  | None => Raise (KeyError (PyStr.of_int k))
  end.

(** ** Video pipeline *)

(** The local variables [cap] and [out] of [process_video], next to the
    world. *)
Record pv_state : Type := PvState {
  pv_cap : option capture;
  pv_out : option string;       (* the writer, by the path it writes *)
  pv_world : world
}.

Definition on_world (f : world -> world) (s : pv_state) : pv_state :=
  {| pv_cap := pv_cap s; pv_out := pv_out s; pv_world := f (pv_world s) |}.

(** [cap = cv2.VideoCapture(input_path)] *)
Definition open_capture (E : env) (input_path : string) : M pv_state capture :=
  fun s =>
    match cv_VideoCapture E (fs (pv_world s) !! input_path) with
    | Raise e => (Raise e, s)
    | Ok cap =>
        (Ok cap, {| pv_cap := Some cap; pv_out := pv_out s;
                    pv_world := acquire (pv_world s) |})
    end.

(** [out = cv2.VideoWriter(output_path, fourcc, fps, (width, height))]:
    the file is created empty. *)
Definition open_writer (E : env) (output_path : string) (fps : pyfloat)
    (frame_size : Z * Z) : M pv_state string :=
  fun s =>
    match cv_VideoWriter E output_path fps frame_size with
    | Raise e => (Raise e, s)
    | Ok _ =>
        (Ok output_path,
         {| pv_cap := pv_cap s; pv_out := Some output_path;
            pv_world := acquire (set_fs <[output_path := []]> (pv_world s)) |})
    end.

(** [out.write(im_array)] *)
Definition writer_write (E : env) (out : string) (im_array : ndarray)
  : M pv_state unit :=
  chunk <~ lift (cv_write E im_array) ;;
  effect (on_world (set_fs (fun f => <[out := default [] (f !! out) ++ chunk]> f))).

(** The [while True] loop, over the reads the capture still has to
    deliver; with none left [ret] is false and the loop breaks. *)
Fixpoint frame_loop (E : env) (out : string) (reads : list (outcome ndarray))
  : M pv_state unit :=
  match reads with
  | [] => ret tt
  | read :: rest =>
      frame <~ lift read ;;
      results <~ lift (model_frame E frame) ;;
      r0 <~ lift (index results 0) ;;
      im_array <~ lift (plot r0) ;;
      writer_write E out im_array ;;;
      frame_loop E out rest
  end.

(** [w if w % 2 == 0 else w - 1] *)
Definition even_or_pred (n : Z) : Z :=
  if n mod 2 =? 0 then n else n - 1.

(** The body of the [try] of [process_video].  The codec tag [fourcc],
    the four characters of avc1, is a constant. *)
Definition process_video_try (E : env) (input_path output_path : string)
  : M pv_state pyval :=
  cap <~ open_capture E input_path ;;
  fps <~ lift (cap_fps cap) ;;
  width <~ lift (cap_width cap) ;;
  height <~ lift (cap_height cap) ;;
  let width := even_or_pred width in
  let height := even_or_pred height in
  out <~ open_writer E output_path fps (width, height) ;;
  frame_loop E out (cap_frames cap) ;;;
  ret (VDict [("resolution", VStr (PyStr.of_int width +:+ "x" +:+ PyStr.of_int height));
              ("fps", VFloat fps)]).

(** The [except Exception as e] of [process_video]. *)
Definition process_video_except (e : exn) : M pv_state pyval :=
  effect (on_world (logger_error (LogError ("视频处理错误: " +:+ str_exn e)))) ;;;
  ret (VBool false).

(** The [finally] of [process_video]. *)
Definition process_video_finally (s : pv_state) : pv_state :=
  let s := match pv_out s with Some _ => on_world release s | None => s end in
  let s := match pv_cap s with Some _ => on_world release s | None => s end in
  on_world destroyAllWindows s.

(** The number of handles the locals [cap] and [out] hold. *)
Definition held (s : pv_state) : nat :=
  (match pv_cap s with Some _ => 1 | None => 0 end +
   match pv_out s with Some _ => 1 | None => 0 end)%nat.

(** [cap = None; out = None] *)
Definition pv_start (w : world) : pv_state :=
  {| pv_cap := None; pv_out := None; pv_world := w |}.

(** [process_video(input_path, output_path)] *)
Definition process_video (E : env) (input_path output_path : string)
  : M world pyval :=
  fun w =>
    let '(r, s) :=
      try_finally
        (try_except (process_video_try E input_path output_path)
                    process_video_except)
        process_video_finally
        (pv_start w) in
    (r, pv_world s).

(** ** Request handler *)

(** An entry of [request.files]. *)
Record file_storage : Type := FileStorage {
  filename : string;
  payload : bytes
}.

(** [bool(file)]: a [FileStorage] is true when its filename is not
    empty. *)
Definition truthy (file : file_storage) : bool :=
  negb (String.eqb (filename file) "").

Record request : Type := Request {
  files : gmap string file_storage;   (* request.files *)
  form : gmap string string           (* request.form *)
}.

(** What the view returns: [jsonify(body), status]. *)
Record response : Type := Response {
  body : pyval;
  status : Z
}.

(** [file.save(path)] *)
Definition file_save (E : env) (file : file_storage) (path : string)
  : M world unit :=
  match save_error E with
  | Some e => raise e
  | None => effect (set_fs <[path := payload file]>)
  end.

(** [model(upload_path)] *)
Definition model_path (E : env) (path : string) : M world (list results) :=
  fun w => (model_file E (fs w !! path), w).

(** [cv2.imwrite(path, img)] *)
Definition imwrite (E : env) (path : string) (img : ndarray) : M world bool :=
  written <~ lift (cv_imwrite E path img) ;;
  match written with
  | Some data => effect (set_fs <[path := data]>) ;;; ret true
  | None => ret false
  end.

(** [for box in bs: detected_objects.add(r.names[int(box.cls)])] *)
Fixpoint collect_names (r : results) (bs : list box) (detected_objects : gset string)
  : outcome (gset string) :=
  match bs with
  | [] => Ok detected_objects
  | b :: rest =>
      match subscript_int (names r) (cls b) with
      | Raise e => Raise e
      | Ok name => collect_names r rest (detected_objects ∪ {[ name ]})
      end
  end.

(** The image branch of the inner [try]. *)
Definition process_image (E : env) (filename result_filename upload_path result_path : string)
  : M world response :=
  results <~ model_path E upload_path ;;
  r0 <~ lift (index results 0) ;;
  im_array <~ lift (plot r0) ;;
  imwrite E result_path im_array ;;;
  detected_objects <~ lift (collect_names r0 (boxes r0) ∅) ;;
  inference_time <~ lift (subscript (speed r0) "inference") ;;
  ret {| body :=
           VDict [("type", VStr "image");
                  ("original", VStr ("/static/uploads/" +:+ filename));
                  ("result", VStr ("/static/results/" +:+ result_filename));
                  ("stats",
                   VDict [("inference_time", VFloat inference_time);
                          ("resolution",
                           VStr (PyStr.of_int (snd (orig_shape r0)) +:+ "x"
                                 +:+ PyStr.of_int (fst (orig_shape r0))));
                          ("detected_objects",
                           VList (VStr <$> elements detected_objects))])];
         status := 200 |}.

(** The video branch of the inner [try]. *)
Definition process_video_upload (E : env) (filename result_filename upload_path result_path : string)
  : M world response :=
  video_stats <~ process_video E upload_path result_path ;;
  resolution <~ lift (getitem video_stats "resolution") ;;
  fps <~ lift (getitem video_stats "fps") ;;
  ret {| body :=
           VDict [("type", VStr "video");
                  ("original", VStr ("/static/uploads/" +:+ filename));
                  ("result", VStr ("/static/results/" +:+ result_filename));
                  ("stats",
                   VDict [("resolution", resolution);
                          ("fps", fps);
                          ("detected_objects", VList [])])];
         status := 200 |}.

(** The body of the inner [try]. *)
Definition processing (E : env) (mode filename result_filename upload_path result_path : string)
  : M world response :=
  if String.eqb mode "image"
  then process_image E filename result_filename upload_path result_path
  else process_video_upload E filename result_filename upload_path result_path.

(** The [except Exception as e] of the inner [try]. *)
Definition processing_except (result_path : string) (e : exn) : M world response :=
  effect (logger_error (LogError ("Error processing file: " +:+ str_exn e))) ;;;
  effect (logger_error (LogTraceback e)) ;;;
  exists_ <~ observe (os_path_exists result_path) ;;
  (if exists_ : bool then effect (os_remove result_path) else ret tt) ;;;
  ret {| body := VDict [("error", VStr "Error processing file");
                        ("details", VStr (str_exn e))];
         status := 500 |}.

(** The body of the outer [try] once the file part is known. *)
Definition handle_file (E : env) (file : file_storage) (mode : string)
  : M world response :=
  if String.eqb (filename file) "" then
    ret {| body := VDict [("error", VStr "No selected file")]; status := 400 |}
  else
    rejected <~ (if negb (truthy file) then ret true
                 else allowed <~ lift (allowed_file (filename file) mode) ;;
                      ret (negb allowed)) ;;
    if rejected : bool then
      ret {| body := VDict [("error", VStr ("Invalid file type for " +:+ mode +:+ " mode"))];
             status := 400 |}
    else
      suffix <~ lift (index (PyStr.rsplit1 "." (filename file)) 1) ;;
      let ext := PyStr.lower suffix in
      let filename := uuid4 E +:+ "." +:+ ext in
      let upload_path := os_path_join UPLOAD_FOLDER filename in
      file_save E file upload_path ;;;
      let result_filename := "result_" +:+ filename in
      let result_path := os_path_join RESULT_FOLDER result_filename in
      try_finally
        (try_except
           (processing E mode filename result_filename upload_path result_path)
           (processing_except result_path))
        destroyAllWindows.

(** The [except Exception as e] of the outer [try]. *)
Definition upload_except (e : exn) : M world response :=
  effect (logger_error (LogError ("Unexpected error: " +:+ str_exn e))) ;;;
  effect (logger_error (LogTraceback e)) ;;;
  ret {| body := VDict [("error", VStr "Internal server error")]; status := 500 |}.

(** [upload_file()], the view of [POST /upload]. *)
Definition upload_file (E : env) (req : request) : M world response :=
  try_except
    (match files req !! "file" with
     | None =>
         ret {| body := VDict [("error", VStr "No file part")]; status := 400 |}
     | Some file =>
         let mode := default "image" (form req !! "mode") in
         handle_file E file mode
     end)
    upload_except.

(** ** What the specification says, in its own words *)

(** The fixed allow-list of a mode: images are png, jpg and jpeg; videos
    are mp4, mov, avi and webm; no other mode has one. *)
Definition allow_list (mode : string) : option (gset string) :=
  if decide (mode = "image") then Some {[ "png"; "jpg"; "jpeg" ]}
  else if decide (mode = "video") then Some {[ "mp4"; "mov"; "avi"; "webm" ]}
  else None.

(** The filename contains a dot, and what follows its last dot is, in
    lower case, in [exts]. *)
Definition has_extension_in (exts : gset string) (filename : string) : Prop :=
  ∃ stem suffix,
    filename = stem +:+ "." +:+ suffix ∧
    PyStr.contains "." suffix = false ∧
    PyStr.lower suffix ∈ exts.

(** A dimension clamped down to an even value: one less when odd,
    unchanged when even. *)
Definition clamp_even (n : Z) : Z := if Z.odd n then n - 1 else n.

(** ** The files of a request *)

(** The extension under which an upload is stored: what follows the last
    dot of the original filename, in lower case. *)
Definition extension (filename : string) : string :=
  match PyStr.rcut "." filename with
  | Some (_, suffix) => PyStr.lower suffix
  | None => ""
  end.

(** The name of the stored upload: the identifier drawn for the request,
    a dot, and the extension. *)
Definition stored_name (E : env) (file : file_storage) : string :=
  uuid4 E +:+ "." +:+ extension (filename file).

Definition upload_path_of (E : env) (file : file_storage) : string :=
  os_path_join UPLOAD_FOLDER (stored_name E file).

Definition result_path_of (E : env) (file : file_storage) : string :=
  os_path_join RESULT_FOLDER ("result_" +:+ stored_name E file).

(** The mode of a request: the form field, [image] when it is absent. *)
Definition mode_of (req : request) : string :=
  default "image" (form req !! "mode").

(** The response to a client error. *)
Definition response_400 (message : string) : response :=
  {| body := VDict [("error", VStr message)]; status := 400 |}.

(** ** Processing failures *)

(** One turn of the frame loop raises on this read: the read itself, the
    detection on the frame, the rendering, or the write of the frame. *)
Definition frame_raises (E : env) (read : outcome ndarray) : bool :=
  match read with
  | Raise _ => true
  | Ok frame =>
      match model_frame E frame with
      | Raise _ => true
      | Ok results =>
          match index results 0 with
          | Raise _ => true
          | Ok r0 =>
              match plot r0 with
              | Raise _ => true
              | Ok im_array => is_raise (cv_write E im_array)
              end
          end
      end
  end.

(** The ways processing of a stored upload fails: the detection call on
    an image raises; the capture or the writer of a video cannot be
    opened; some turn of the frame loop raises. *)
Inductive processing_fails (E : env) (file : file_storage) (mode : string) : Prop :=
| detection_fails :
    mode = "image" →
    is_raise (model_file E (Some (payload file))) = true →
    processing_fails E file mode
| capture_open_fails :
    mode = "video" →
    is_raise (cv_VideoCapture E (Some (payload file))) = true →
    processing_fails E file mode
| writer_open_fails (cap : capture) (fps : pyfloat) (W H : Z) :
    mode = "video" →
    cv_VideoCapture E (Some (payload file)) = Ok cap →
    cap_fps cap = Ok fps → cap_width cap = Ok W → cap_height cap = Ok H →
    is_raise (cv_VideoWriter E (result_path_of E file) fps
                (clamp_even W, clamp_even H)) = true →
    processing_fails E file mode
| mid_video_fails (cap : capture) (i : nat) (read : outcome ndarray) :
    mode = "video" →
    cv_VideoCapture E (Some (payload file)) = Ok cap →
    cap_frames cap !! i = Some read →
    frame_raises E read = true →
    processing_fails E file mode.

(** ** Sample inputs *)

Module Sample.
Import Byte.

(** Three boxes, two of them of the same class. *)
Definition three_boxes : results :=
  {| boxes := [Box 0; Box 1; Box 0];
     names := {[ 0 := "cat"; 1 := "dog" ]};
     speed := {[ "inference" := Float 4617315517961601024 ]};
     orig_shape := (480, 639);
     plot := Ok [x2a] |}.

(** A 639x480 source of two frames. *)
Definition odd_width : capture :=
  {| cap_fps := Ok (Float 4629137466983448576);
     cap_width := Ok 639;
     cap_height := Ok 480;
     cap_frames := [Ok [x01]; Ok [x02]] |}.

(** The same source, whose second read raises. *)
Definition broken : capture :=
  {| cap_fps := Ok (Float 4629137466983448576);
     cap_width := Ok 639;
     cap_height := Ok 480;
     cap_frames := [Ok [x01]; Raise (ExtError "codec error")] |}.

(** Every external call succeeds. *)
Definition healthy : env :=
  {| uuid4 := "0b5e1c1e-7d5f-4b0a-9d43-2f6f0c1a8e11";
     save_error := None;
     model_file := fun _ => Ok [three_boxes];
     model_frame := fun _ => Ok [three_boxes];
     cv_imwrite := fun _ img => Ok (Some img);
     cv_VideoCapture := fun _ => Ok odd_width;
     cv_VideoWriter := fun _ _ _ => Ok tt;
     cv_write := fun img => Ok img |}.

(** The second frame cannot be read. *)
Definition failing_video : env :=
  {| uuid4 := uuid4 healthy;
     save_error := None;
     model_file := model_file healthy;
     model_frame := model_frame healthy;
     cv_imwrite := cv_imwrite healthy;
     cv_VideoCapture := fun _ => Ok broken;
     cv_VideoWriter := cv_VideoWriter healthy;
     cv_write := cv_write healthy |}.

(** [cv2.imwrite] returns False and writes nothing. *)
Definition silent_imwrite : env :=
  {| uuid4 := uuid4 healthy;
     save_error := None;
     model_file := model_file healthy;
     model_frame := model_frame healthy;
     cv_imwrite := fun _ _ => Ok None;
     cv_VideoCapture := cv_VideoCapture healthy;
     cv_VideoWriter := cv_VideoWriter healthy;
     cv_write := cv_write healthy |}.

Definition empty_world : world := {| fs := ∅; log := []; handles := 0 |}.

Definition upload (name mode : string) : request :=
  {| files := {[ "file" := {| filename := name; payload := [x89; x50] |} ]};
     form := {[ "mode" := mode ]} |}.
End Sample.

(** ** Scoped video handles *)

(** [with video_capture_context(path) as cap: body(cap)].  The generator
    opens the capture, yields it to the body of the [with] and releases it
    in its [finally], whether the body returns or raises; when the
    constructor raises, [cap] is still [None], nothing is released and the
    body does not run. *)
Definition video_capture_context {A} (E : env) (path : string)
    (body : capture → M world A) : M world A :=
  fun w =>
    match cv_VideoCapture E (fs w !! path) with
    | Raise e => (Raise e, w)
    | Ok cap => try_finally (body cap) release (acquire w)
    end.

(** [with video_writer_context(path, fourcc, fps, frame_size) as out:
    body(out)], for a constructor [VideoWriter] that takes the codec tag;
    the writer is known by the path it writes, and the file is created
    empty. *)
Definition video_writer_context {A}
    (VideoWriter : string → string → pyfloat → Z * Z → outcome unit)
    (path fourcc : string) (fps : pyfloat) (frame_size : Z * Z)
    (body : string → M world A) : M world A :=
  fun w =>
    match VideoWriter path fourcc fps frame_size with
    | Raise e => (Raise e, w)
    | Ok _ => try_finally (body path) release (acquire (set_fs <[path := []]> w))
    end.

(** ** More sample inputs *)

Module MoreSamples.
Import Byte.

(** Two boxes; the class of the second one has no name. *)
Definition unnamed_class : results :=
  {| boxes := [Box 0; Box 7];
     names := {[ 0 := "cat" ]};
     speed := {[ "inference" := Float 4617315517961601024 ]};
     orig_shape := (480, 640);
     plot := Ok [x2a] |}.

(** The detector reports a class it has no name for. *)
Definition nameless : env :=
  {| uuid4 := uuid4 Sample.healthy;
     save_error := None;
     model_file := fun _ => Ok [unnamed_class];
     model_frame := model_frame Sample.healthy;
     cv_imwrite := cv_imwrite Sample.healthy;
     cv_VideoCapture := cv_VideoCapture Sample.healthy;
     cv_VideoWriter := cv_VideoWriter Sample.healthy;
     cv_write := cv_write Sample.healthy |}.

(** The detector returns an empty list. *)
Definition no_detection : env :=
  {| uuid4 := uuid4 Sample.healthy;
     save_error := None;
     model_file := fun _ => Ok [];
     model_frame := model_frame Sample.healthy;
     cv_imwrite := cv_imwrite Sample.healthy;
     cv_VideoCapture := cv_VideoCapture Sample.healthy;
     cv_VideoWriter := cv_VideoWriter Sample.healthy;
     cv_write := cv_write Sample.healthy |}.

(** [file.save] raises. *)
Definition disk_full : env :=
  {| uuid4 := uuid4 Sample.healthy;
     save_error := Some (ExtError "No space left on device");
     model_file := model_file Sample.healthy;
     model_frame := model_frame Sample.healthy;
     cv_imwrite := cv_imwrite Sample.healthy;
     cv_VideoCapture := cv_VideoCapture Sample.healthy;
     cv_VideoWriter := cv_VideoWriter Sample.healthy;
     cv_write := cv_write Sample.healthy |}.

(** A later request, which draws another identifier. *)
Definition later : env :=
  {| uuid4 := "7c9e6679-7425-40de-944b-e07fc1f90ae7";
     save_error := None;
     model_file := model_file Sample.healthy;
     model_frame := model_frame Sample.healthy;
     cv_imwrite := cv_imwrite Sample.healthy;
     cv_VideoCapture := fun _ => Ok Sample.broken;
     cv_VideoWriter := cv_VideoWriter Sample.healthy;
     cv_write := cv_write Sample.healthy |}.

Definition the_file (name : string) : file_storage :=
  {| filename := name; payload := [x89; x50] |}.

(** A request without a file part. *)
Definition no_file_part : request :=
  {| files := ∅; form := {[ "mode" := "image" ]} |}.

(** A request without a mode field. *)
Definition no_mode (name : string) : request :=
  {| files := {[ "file" := the_file name ]}; form := ∅ |}.

(** A world with a file and a log entry already there. *)
Definition used_world : world :=
  {| fs := {[ "static/uploads/old.png" := [x01] ]};
     log := [LogError "earlier"];
     handles := 0 |}.

(** Reads two frames into the result of the enclosing [with]. *)
Definition count_frames (cap : capture) (out : string) : M world nat :=
  ret (length (cap_frames cap)).
End MoreSamples.

(** * Properties *)

(** ** Strings *)

Section string_facts.
Variable sep : ascii.

Lemma contains_app_sep (pre suf : string) :
  PyStr.contains sep (pre +:+ String sep suf) = true.
Proof.
  induction pre as [|c pre IH]; simpl.
  - by rewrite Ascii.eqb_refl.
  - by rewrite IH; destruct (Ascii.eqb c sep).
Qed.

Lemma rcut_None (s : string) :
  PyStr.rcut sep s = None ↔ PyStr.contains sep s = false.
Proof.
  induction s as [|c s IH]; simpl; [done|].
  destruct (PyStr.rcut sep s) as [[pre suf]|] eqn:Hcut.
  - assert (PyStr.contains sep s ≠ false) as Hs
      by (intros H; apply IH in H; discriminate).
    destruct (PyStr.contains sep s); [|done].
    split; [done|]. by destruct (Ascii.eqb c sep).
  - destruct IH as [IH _]. rewrite (IH eq_refl).
    destruct (Ascii.eqb c sep); split; done.
Qed.

Lemma rcut_Some (s pre suf : string) :
  PyStr.rcut sep s = Some (pre, suf) →
  s = pre +:+ String sep suf ∧ PyStr.contains sep suf = false.
Proof.
  revert pre. induction s as [|c s IH]; intros pre; simpl; [done|].
  destruct (PyStr.rcut sep s) as [[pre' suf']|] eqn:Hcut.
  - intros [= <- <-]. destruct (IH pre' eq_refl) as [-> Hno]. done.
  - destruct (Ascii.eqb_spec c sep) as [->|]; [|done].
    intros [= <- <-]. split; [done|]. by apply rcut_None.
Qed.

Lemma rcut_app (pre suf : string) :
  PyStr.contains sep suf = false →
  PyStr.rcut sep (pre +:+ String sep suf) = Some (pre, suf).
Proof.
  intros Hno. induction pre as [|c pre IH]; simpl.
  - apply rcut_None in Hno. by rewrite Hno, Ascii.eqb_refl.
  - by rewrite IH.
Qed.

Lemma rsplit1_app (pre suf : string) :
  PyStr.contains sep suf = false →
  PyStr.rsplit1 sep (pre +:+ String sep suf) = [pre; suf].
Proof. intros Hno. unfold PyStr.rsplit1. by rewrite rcut_app. Qed.

Lemma rsplit1_contains (s : string) :
  PyStr.contains sep s = true →
  ∃ pre suf, s = pre +:+ String sep suf ∧ PyStr.contains sep suf = false ∧
             PyStr.rsplit1 sep s = [pre; suf].
Proof.
  intros Hs. unfold PyStr.rsplit1.
  destruct (PyStr.rcut sep s) as [[pre suf]|] eqn:Hcut.
  - destruct (rcut_Some _ _ _ Hcut) as [-> Hno]. eauto.
  - apply rcut_None in Hcut. congruence.
Qed.
End string_facts.

(** The configured allow-lists are the ones the specification fixes. *)
Lemma ALLOWED_EXTENSIONS_lookup (mode : string) :
  ALLOWED_EXTENSIONS !! mode = allow_list mode.
Proof.
  unfold ALLOWED_EXTENSIONS, allow_list.
  destruct (decide (mode = "image")) as [->|Himage].
  { by rewrite lookup_insert_eq. }
  rewrite lookup_insert_ne by done.
  destruct (decide (mode = "video")) as [->|Hvideo].
  { by rewrite lookup_singleton_eq. }
  by rewrite lookup_singleton_ne.
Qed.

(** On a filename with a dot the validator looks the lower-cased suffix up
    in the allow-list of the mode. *)
Lemma allowed_file_dotted (stem suffix mode : string) :
  PyStr.contains "." suffix = false →
  allowed_file (stem +:+ "." +:+ suffix) mode =
    match allow_list mode with
    | Some exts => Ok (bool_decide (PyStr.lower suffix ∈ exts))
    | None => Raise (KeyError (PyStr.repr mode))
    end.
Proof.
  intros Hno. unfold allowed_file.
  change (stem +:+ "." +:+ suffix) with (stem +:+ String "." suffix).
  rewrite contains_app_sep, rsplit1_app by done.
  unfold index, subscript. simpl. rewrite ALLOWED_EXTENSIONS_lookup.
  by destruct (allow_list mode).
Qed.

Lemma allowed_file_no_dot (filename mode : string) :
  PyStr.contains "." filename = false → allowed_file filename mode = Ok false.
Proof. intros H. unfold allowed_file. by rewrite H. Qed.

(** For a mode that has an allow-list, a filename without an allowed
    extension is rejected with [False]. *)
Lemma allowed_file_rejects (filename mode : string) (exts : gset string) :
  allow_list mode = Some exts →
  ¬ has_extension_in exts filename →
  allowed_file filename mode = Ok false.
Proof.
  intros Hexts Hnot.
  destruct (PyStr.contains "." filename) eqn:Hdot;
    [|by apply allowed_file_no_dot].
  destruct (rsplit1_contains _ _ Hdot) as (stem & suffix & -> & Hno & _).
  change (stem +:+ String "." suffix) with (stem +:+ "." +:+ suffix) in *.
  rewrite allowed_file_dotted, Hexts by done.
  rewrite bool_decide_eq_false_2; [done|].
  intros Hin. apply Hnot. by exists stem, suffix.
Qed.

(** C1. For every filename and mode the validator accepts exactly when the
    mode has an allow-list (image: png, jpg, jpeg; video: mp4, mov, avi,
    webm) and the filename has a dot whose last suffix, lower-cased, is in
    it; for a mode with an allow-list every other filename is rejected
    with [False]; a filename without a dot is rejected whatever the mode;
    and two filenames whose suffixes differ only in case get the same
    answer. *)
Theorem allowed_file_spec (filename mode : string) :
  (allowed_file filename mode = Ok true ↔
     ∃ exts, allow_list mode = Some exts ∧ has_extension_in exts filename) ∧
  (∀ exts, allow_list mode = Some exts →
     ¬ has_extension_in exts filename → allowed_file filename mode = Ok false) ∧
  (PyStr.contains "." filename = false → allowed_file filename mode = Ok false) ∧
  (∀ stem suffix suffix',
     filename = stem +:+ "." +:+ suffix →
     PyStr.contains "." suffix = false →
     PyStr.contains "." suffix' = false →
     PyStr.lower suffix' = PyStr.lower suffix →
     allowed_file (stem +:+ "." +:+ suffix') mode = allowed_file filename mode).
Proof.
  split; [|split; [|split]].
  - split.
    + intros Hacc.
      destruct (PyStr.contains "." filename) eqn:Hdot;
        [|by rewrite allowed_file_no_dot in Hacc].
      destruct (rsplit1_contains _ _ Hdot) as (stem & suffix & -> & Hno & _).
      change (stem +:+ String "." suffix) with (stem +:+ "." +:+ suffix) in *.
      rewrite allowed_file_dotted in Hacc by done.
      destruct (allow_list mode) as [exts|]; [|done].
      exists exts. split; [done|]. exists stem, suffix.
      injection Hacc as Hacc. apply bool_decide_eq_true in Hacc. done.
    + intros (exts & Hexts & stem & suffix & -> & Hno & Hin).
      rewrite allowed_file_dotted, Hexts by done.
      by rewrite bool_decide_eq_true_2.
  - intros exts. apply allowed_file_rejects.
  - apply allowed_file_no_dot.
  - intros stem suffix suffix' -> Hno Hno' Hlow.
    rewrite !allowed_file_dotted by done. by rewrite Hlow.
Qed.

(** The validator accepts [clip.MP4] in video mode. *)
Lemma allowed_file_spec_witness : allowed_file "clip.MP4" "video" = Ok true.
Proof.
  apply (allowed_file_spec "clip.MP4" "video").
  exists {[ "mp4"; "mov"; "avi"; "webm" ]}. split; [reflexivity|].
  exists "clip", "MP4". split; [reflexivity|]. split; [reflexivity|].
  vm_compute. set_solver.
Defined.

Lemma pair_eq_inv {A B} (a a' : A) (b b' : B) :
  (a, b) = (a', b') → a = a' ∧ b = b'.
Proof. by intros [= -> ->]. Qed.

(** ** Video pipeline *)

(** The loop writes to the output file only, and logs nothing. *)
Lemma frame_loop_frame (E : env) (out : string) (reads : list (outcome ndarray)) :
  ∀ s r s',
    frame_loop E out reads s = (r, s') →
    log (pv_world s') = log (pv_world s) ∧
    ∀ p, p ≠ out → fs (pv_world s') !! p = fs (pv_world s) !! p.
Proof.
  induction reads as [|read reads IH]; intros s r s' Hrun; simpl in Hrun.
  - by injection Hrun as <- <-.
  - unfold writer_write in Hrun. run.
    repeat (next_outcome Hrun; [|by injection Hrun as <- <-]).
    apply IH in Hrun as [Hlog Hfs]. simpl in *.
    split; [done|]. intros p Hp. rewrite Hfs by done.
    by rewrite lookup_insert_ne.
Qed.

(** What a normal return of the [try] body says about the capture. *)
Lemma process_video_try_Ok (E : env) (input_path output_path : string)
    (w : world) (v : pyval) (s' : pv_state) :
  process_video_try E input_path output_path (pv_start w) = (Ok v, s') →
  ∃ cap fps W H,
    cv_VideoCapture E (fs w !! input_path) = Ok cap ∧
    cap_fps cap = Ok fps ∧ cap_width cap = Ok W ∧ cap_height cap = Ok H ∧
    v = VDict [("resolution",
                VStr (PyStr.of_int (even_or_pred W) +:+ "x"
                      +:+ PyStr.of_int (even_or_pred H)));
               ("fps", VFloat fps)].
Proof.
  unfold process_video_try, open_capture, open_writer. run. intros Hrun.
  repeat (next_outcome Hrun; [|done]).
  destruct (frame_loop _ _ _ _) as [[[]|e] s''] eqn:Hloop; [|done].
  injection Hrun as <- <-. eauto 10.
Qed.

(** The [try] body logs nothing and writes to the output file only. *)
Lemma process_video_try_frame (E : env) (input_path output_path : string)
    (w : world) (r : outcome pyval) (s' : pv_state) :
  process_video_try E input_path output_path (pv_start w) = (r, s') →
  log (pv_world s') = log w ∧
  ∀ p, p ≠ output_path → fs (pv_world s') !! p = fs w !! p.
Proof.
  unfold process_video_try, open_capture, open_writer. run. intros Hrun.
  repeat (next_outcome Hrun; [|by injection Hrun as <- <-]).
  destruct (frame_loop _ _ _ _) as [r' s''] eqn:Hloop.
  apply frame_loop_frame in Hloop as [Hlog Hfs]. simpl in *.
  assert (s' = s'') as -> by (destruct r'; simpl in Hrun; by injection Hrun as _ <-).
  split; [done|]. intros p Hp. rewrite Hfs by done.
  by rewrite lookup_insert_ne.
Qed.

Lemma fs_process_video_finally (s : pv_state) :
  fs (pv_world (process_video_finally s)) = fs (pv_world s).
Proof. by destruct s as [[cap|] [out|] w]. Qed.

Lemma log_process_video_finally (s : pv_state) :
  log (pv_world (process_video_finally s)) = log (pv_world s).
Proof. by destruct s as [[cap|] [out|] w]. Qed.

(** [process_video] in terms of its [try] body. *)
Lemma process_video_unfold (E : env) (input_path output_path : string) (w : world) :
  process_video E input_path output_path w =
    match process_video_try E input_path output_path (pv_start w) with
    | (Ok v, s) => (Ok v, pv_world (process_video_finally s))
    | (Raise e, s) =>
        (Ok (VBool false),
         pv_world (process_video_finally
           (on_world (logger_error (LogError ("视频处理错误: " +:+ str_exn e))) s)))
    end.
Proof.
  unfold process_video, process_video_except. run.
  by destruct (process_video_try _ _ _ _) as [[v|e] s].
Qed.

Lemma even_or_pred_clamp (n : Z) :
  even_or_pred n = clamp_even n ∧
  Z.even (even_or_pred n) = true ∧
  n - 1 <= even_or_pred n <= n.
Proof.
  unfold even_or_pred, clamp_even.
  rewrite Zmod_odd. destruct (Z.odd n) eqn:Hodd; simpl.
  - rewrite Z.even_sub, <- Z.negb_odd, Hodd. split; [done|]. split; [done|lia].
  - rewrite <- Z.negb_odd, Hodd. split; [done|]. split; [done|lia].
Qed.

(** The video pipeline leaves every file but its output file alone. *)
Lemma process_video_fs (E : env) (input_path output_path : string)
    (w : world) (r : outcome pyval) (w' : world) :
  process_video E input_path output_path w = (r, w') →
  ∀ p, p ≠ output_path → fs w' !! p = fs w !! p.
Proof.
  rewrite process_video_unfold.
  destruct (process_video_try _ _ _ _) as [[v|e] s] eqn:Htry;
    intros Hrun p Hp; apply pair_eq_inv in Hrun as [_ <-];
    apply process_video_try_frame in Htry as [_ Hfs];
    rewrite fs_process_video_finally; simpl; by apply Hfs.
Qed.

(** The loop keeps the locals and the handles as they are. *)
Lemma frame_loop_handles (E : env) (out : string) (reads : list (outcome ndarray)) :
  ∀ s r s',
    frame_loop E out reads s = (r, s') →
    held s' = held s ∧ handles (pv_world s') = handles (pv_world s).
Proof.
  induction reads as [|read reads IH]; intros s r s' Hrun; simpl in Hrun.
  - by injection Hrun as <- <-.
  - unfold writer_write in Hrun. run.
    repeat (next_outcome Hrun; [|by injection Hrun as <- <-]).
    by apply IH in Hrun as [-> ->].
Qed.

(** Every handle the video pipeline acquires is released when it
    returns. *)
Lemma process_video_handles (E : env) (input_path output_path : string)
    (w : world) (r : outcome pyval) (w' : world) :
  process_video E input_path output_path w = (r, w') →
  handles w' = handles w.
Proof.
  assert (∀ s, handles (pv_world (process_video_finally s)) =
               (handles (pv_world s) - held s)%nat) as Hfinally.
  { intros [[cap|] [out|] [f l h]]; unfold held; simpl; lia. }
  assert (∀ r s, process_video_try E input_path output_path (pv_start w) = (r, s) →
                 handles (pv_world s) = (handles w + held s)%nat) as Htry.
  { unfold process_video_try, open_capture, open_writer. run. intros r0 s Hrun.
    repeat (next_outcome Hrun;
            [|injection Hrun as _ <-; unfold held; simpl; lia]).
    destruct (frame_loop _ _ _ _) as [r' s''] eqn:Hloop.
    apply frame_loop_handles in Hloop as [Hheld Hhandles].
    assert (s = s'') as -> by (destruct r'; simpl in Hrun; by injection Hrun as _ <-).
    rewrite Hheld, Hhandles. unfold held. simpl. lia. }
  rewrite process_video_unfold.
  destruct (process_video_try _ _ _ _) as [[v|e] s] eqn:Hrun;
    intros Hret; apply pair_eq_inv in Hret as [_ <-];
    rewrite Hfinally; unfold held in *; simpl; rewrite (Htry _ _ eq_refl); lia.
Qed.


(** C4. Whenever the video pipeline returns stats, their resolution is
    written from the native width and height of the source, each one less
    when odd and unchanged when even: the reported dimensions are even and
    never above the native ones. *)
Theorem video_resolution_clamped (E : env) (input_path output_path : string)
    (w : world) (stats : list (string * pyval)) (w' : world) :
  process_video E input_path output_path w = (Ok (VDict stats), w') →
  ∃ cap W H,
    cv_VideoCapture E (fs w !! input_path) = Ok cap ∧
    cap_width cap = Ok W ∧ cap_height cap = Ok H ∧
    assoc "resolution" stats =
      Some (VStr (PyStr.of_int (clamp_even W) +:+ "x"
                  +:+ PyStr.of_int (clamp_even H))) ∧
    Z.even (clamp_even W) = true ∧ Z.even (clamp_even H) = true ∧
    W - 1 <= clamp_even W <= W ∧ H - 1 <= clamp_even H <= H.
Proof.
  rewrite process_video_unfold.
  destruct (process_video_try _ _ _ _) as [[v|e] s] eqn:Htry; [|done].
  intros [= -> <-].
  apply process_video_try_Ok in Htry
    as (cap & fps & W & H & Hcap & _ & HW & HH & [= ->]).
  exists cap, W, H.
  destruct (even_or_pred_clamp W) as (<- & ? & ?).
  destruct (even_or_pred_clamp H) as (<- & ? & ?).
  done.
Qed.

(** A 639x480 source is reported as 638x480. *)
Lemma video_resolution_clamped_witness :
  ∃ cap W H,
    cv_VideoCapture Sample.healthy (Some []) = Ok cap ∧
    cap_width cap = Ok W ∧ cap_height cap = Ok H ∧
    Some (VStr "638x480") =
      Some (VStr (PyStr.of_int (clamp_even W) +:+ "x"
                  +:+ PyStr.of_int (clamp_even H))) ∧
    Z.even (clamp_even W) = true ∧ Z.even (clamp_even H) = true ∧
    W - 1 <= clamp_even W <= W ∧ H - 1 <= clamp_even H <= H.
Proof.
  apply (video_resolution_clamped Sample.healthy "in.mp4" "out.mp4"
           {| fs := {[ "in.mp4" := [] ]}; log := []; handles := 0 |}
           [("resolution", VStr "638x480");
            ("fps", VFloat (Float 4629137466983448576))]
           {| fs := {[ "in.mp4" := []; "out.mp4" := [Byte.x2a; Byte.x2a] ]};
              log := []; handles := 0 |}).
  vm_compute. reflexivity.
Defined.

(** ** Request handler *)

(** An accepted filename has a suffix, which gives the stored extension. *)
Lemma allowed_file_suffix (filename mode : string) :
  allowed_file filename mode = Ok true →
  ∃ suffix, index (PyStr.rsplit1 "." filename) 1 = Ok suffix ∧
            extension filename = PyStr.lower suffix.
Proof.
  intros Hacc.
  destruct (PyStr.contains "." filename) eqn:Hdot;
    [|by rewrite allowed_file_no_dot in Hacc].
  destruct (rsplit1_contains _ _ Hdot) as (stem & suffix & -> & Hno & Hsplit).
  exists suffix. rewrite Hsplit. split; [done|].
  unfold extension. by rewrite rcut_app.
Qed.

(** The except clauses return a response; they never raise. *)
Lemma processing_except_run (result_path : string) (e : exn) (w : world) :
  processing_except result_path e w =
    (Ok {| body := VDict [("error", VStr "Error processing file");
                          ("details", VStr (str_exn e))];
           status := 500 |},
     set_fs (delete result_path)
       (logger_error (LogTraceback e)
          (logger_error (LogError ("Error processing file: " +:+ str_exn e)) w))).
Proof.
  unfold processing_except, os_path_exists, os_remove. run.
  case_bool_decide as Hex; [done|].
  destruct w as [f l h]. unfold set_fs, logger_error in *. simpl in *.
  do 2 f_equal. symmetry. apply delete_id.
  by apply eq_None_not_Some.
Qed.

Lemma upload_except_run (e : exn) (w : world) :
  upload_except e w =
    (Ok {| body := VDict [("error", VStr "Internal server error")]; status := 500 |},
     logger_error (LogTraceback e)
       (logger_error (LogError ("Unexpected error: " +:+ str_exn e)) w)).
Proof. done. Qed.

(** The paths the handler takes, one per line of the case analysis. *)
Lemma upload_file_cases (E : env) (req : request) (w : world) :
  upload_file E req w =
    match files req !! "file" with
    | None => (Ok (response_400 "No file part"), w)
    | Some file =>
        if String.eqb (filename file) "" then
          (Ok (response_400 "No selected file"), w)
        else
          match allowed_file (filename file) (mode_of req) with
          | Raise e => upload_except e w
          | Ok false =>
              (Ok (response_400 ("Invalid file type for " +:+ mode_of req +:+ " mode")), w)
          | Ok true =>
              match save_error E with
              | Some e => upload_except e w
              | None =>
                  match processing E (mode_of req) (stored_name E file)
                          ("result_" +:+ stored_name E file)
                          (upload_path_of E file) (result_path_of E file)
                          (set_fs <[upload_path_of E file := payload file]> w) with
                  | (Ok resp, w') => (Ok resp, w')
                  | (Raise e, w') => processing_except (result_path_of E file) e w'
                  end
              end
          end
    end.
Proof.
  unfold upload_file, mode_of.
  destruct (files req !! "file") as [file|]; [|reflexivity].
  unfold handle_file, truthy, try_except at 1.
  destruct (String.eqb (filename file) "") eqn:Hname; [reflexivity|].
  cbn [negb]. unfold bind at 1 2, lift at 1.
  destruct (allowed_file _ _) as [[|]|e] eqn:Hallowed; [|reflexivity|reflexivity].
  destruct (allowed_file_suffix _ _ Hallowed) as (suffix & Hsuffix & Hext).
  unfold ret at 1. cbn [negb].
  unfold bind at 1, lift at 1. rewrite Hsuffix.
  unfold upload_path_of, result_path_of, stored_name. rewrite Hext.
  unfold bind at 1, file_save.
  destruct (save_error E) as [e|]; [reflexivity|].
  unfold effect at 1, try_finally, try_except, destroyAllWindows.
  destruct (processing _ _ _ _ _ _ _) as [[resp|e] w'] eqn:Hproc; [reflexivity|].
  by rewrite processing_except_run.
Qed.

(** The stored upload and the result file are different files. *)
Lemma upload_path_ne_result_path (E : env) (file : file_storage) :
  upload_path_of E file ≠ result_path_of E file.
Proof.
  unfold upload_path_of, result_path_of, os_path_join.
  generalize (stored_name E file) as name. intros name.
  destruct name as [|c name]; simpl; [done|].
  destruct (Ascii.eqb_spec c "/") as [->|_]; simpl; done.
Qed.

(** The names collected from a list of boxes. *)
Lemma collect_names_Ok (r : results) (bs : list box) :
  ∀ acc s,
    collect_names r bs acc = Ok s →
    (∀ name, name ∈ s ↔
       name ∈ acc ∨ ∃ b, b ∈ bs ∧ names r !! cls b = Some name) ∧
    (size s <= size acc + length bs)%nat.
Proof.
  induction bs as [|b bs IH]; intros acc s; simpl.
  - intros [= <-]. split; [|lia]. intros name. split; [by left|].
    intros [?|(b & Hb & _)]; [done|]. by apply elem_of_nil in Hb.
  - unfold subscript_int.
    destruct (names r !! cls b) as [n|] eqn:Hn; [|done].
    intros Hrest. apply IH in Hrest as [Hmem Hsize]. split.
    + intros name. rewrite Hmem, elem_of_union, elem_of_singleton.
      split.
      * intros [[?| ->]|(b' & Hb' & Hname)]; [by left|..].
        -- right. exists b. split; [apply elem_of_cons; by left|done].
        -- right. exists b'. split; [apply elem_of_cons; by right|done].
      * intros [?|(b' & Hb' & Hname)]; [by left; left|].
        apply elem_of_cons in Hb' as [->|Hb'].
        -- left. right. congruence.
        -- right. by exists b'.
    + etrans; [apply Hsize|].
      assert (size (acc ∪ {[n]}) <= size acc + 1)%nat; [|simpl; lia].
      rewrite size_union_alt. apply Nat.add_le_mono_l.
      rewrite <- (size_singleton (C := gset string) n).
      by apply subseteq_size, subseteq_difference_l.
Qed.

(** Processing writes to the result file only. *)
Lemma processing_fs (E : env) (mode name result_name upload_path result_path : string)
    (w : world) (r : outcome response) (w' : world) :
  processing E mode name result_name upload_path result_path w = (r, w') →
  ∀ p, p ≠ result_path → fs w' !! p = fs w !! p.
Proof.
  unfold processing. destruct (String.eqb mode "image").
  - unfold process_image, model_path, imwrite. run. intros Hrun p Hp.
    repeat (next_outcome Hrun; [|by injection Hrun as _ <-]).
    destruct a2 as [data|]; simpl in Hrun;
      repeat (next_outcome Hrun; [|injection Hrun as _ <-; simpl;
                                   by rewrite ?lookup_insert_ne]);
      injection Hrun as _ <-; simpl; by rewrite ?lookup_insert_ne.
  - unfold process_video_upload. unfold bind at 1. intros Hrun p Hp.
    destruct (process_video _ _ _ _) as [[v|e] w1] eqn:Hpv.
    + rewrite <- (process_video_fs _ _ _ _ _ _ Hpv p Hp).
      run. repeat (next_outcome Hrun; [|by injection Hrun as _ <-]).
      by injection Hrun as _ <-.
    + injection Hrun as _ <-. by apply (process_video_fs _ _ _ _ _ _ Hpv).
Qed.

(** C7. A request whose file part is present with an empty filename is
    answered 400 with exactly [{"error": "No selected file"}], and nothing
    else happens. *)
Theorem empty_filename_400 (E : env) (req : request) (file : file_storage)
    (w : world) :
  files req !! "file" = Some file →
  filename file = "" →
  upload_file E req w =
    (Ok {| body := VDict [("error", VStr "No selected file")]; status := 400 |}, w).
Proof.
  intros Hfile Hname. rewrite upload_file_cases, Hfile, Hname. done.
Qed.

Lemma empty_filename_400_witness :
  upload_file Sample.healthy (Sample.upload "" "image") Sample.empty_world =
    (Ok {| body := VDict [("error", VStr "No selected file")]; status := 400 |},
     Sample.empty_world).
Proof.
  apply (empty_filename_400 _ _ {| filename := ""; payload := [Byte.x89; Byte.x50] |});
    reflexivity.
Defined.

(** The part of C3 that holds: with a mode that has an allow-list, a
    filename that fails validation is answered 400. *)
Lemma invalid_file_400 (E : env) (req : request) (file : file_storage)
    (exts : gset string) (w : world) :
  files req !! "file" = Some file →
  filename file ≠ "" →
  allow_list (mode_of req) = Some exts →
  ¬ has_extension_in exts (filename file) →
  upload_file E req w =
    (Ok (response_400 ("Invalid file type for " +:+ mode_of req +:+ " mode")), w).
Proof.
  intros Hfile Hname Hexts Hnot. rewrite upload_file_cases, Hfile.
  apply String.eqb_neq in Hname. rewrite Hname.
  by rewrite (allowed_file_rejects _ _ exts).
Qed.

(** A mode without an allow-list and a filename without a dot: 400. *)
Lemma unknown_mode_no_dot_400 (E : env) (req : request) (file : file_storage)
    (w : world) :
  files req !! "file" = Some file →
  filename file ≠ "" →
  PyStr.contains "." (filename file) = false →
  upload_file E req w =
    (Ok (response_400 ("Invalid file type for " +:+ mode_of req +:+ " mode")), w).
Proof.
  intros Hfile Hname Hdot. rewrite upload_file_cases, Hfile.
  apply String.eqb_neq in Hname. rewrite Hname.
  by rewrite allowed_file_no_dot.
Qed.

(** C3, where the handler departs from it: a filename with a dot sent with
    a mode that has no allow-list makes the validator raise [KeyError],
    and the request is answered 500, not 400. *)
Theorem unknown_mode_500 (E : env) (w : world) :
  allowed_file "a.png" "audio" = Raise (KeyError "'audio'") ∧
  fst (upload_file E (Sample.upload "a.png" "audio") w) =
    Ok {| body := VDict [("error", VStr "Internal server error")]; status := 500 |}.
Proof.
  split; [reflexivity|].
  rewrite upload_file_cases.
  replace (files (Sample.upload "a.png" "audio") !! "file")
    with (Some {| filename := "a.png"; payload := [Byte.x89; Byte.x50] |})
    by reflexivity.
  replace (mode_of (Sample.upload "a.png" "audio")) with "audio" by reflexivity.
  reflexivity.
Qed.

(** C6. A video-mode upload answered 200 reports an empty list of detected
    objects, whatever the detector finds in the frames. *)
Theorem video_detected_objects_empty (E : env) (req : request) (w : world)
    (resp : response) (w' : world) :
  mode_of req = "video" →
  upload_file E req w = (Ok resp, w') →
  status resp = 200 →
  dig ["type"] (body resp) = Some (VStr "video") ∧
  dig ["stats"; "detected_objects"] (body resp) = Some (VList []).
Proof.
  intros Hmode. rewrite upload_file_cases, Hmode.
  destruct (files req !! "file") as [file|]; [|by intros [= <- _]].
  destruct (String.eqb (filename file) ""); [by intros [= <- _]|].
  destruct (allowed_file _ _) as [[|]|e];
    [|by intros [= <- _]|by intros [= <- _]].
  destruct (save_error E); [by intros [= <- _]|].
  destruct (processing _ _ _ _ _ _ _) as [[resp'|e] w1] eqn:Hproc;
    [|rewrite processing_except_run; by intros [= <- _]].
  intros [= -> ->] _.
  unfold processing in Hproc. simpl in Hproc.
  unfold process_video_upload in Hproc. unfold bind at 1 in Hproc.
  destruct (process_video _ _ _ _) as [[v|e] w2]; [|done].
  run. repeat (next_outcome Hproc; [|done]).
  by injection Hproc as <- _.
Qed.

(** A two-frame clip uploaded in video mode. *)
Lemma video_detected_objects_empty_witness :
  ∃ resp,
    fst (upload_file Sample.healthy (Sample.upload "clip.MP4" "video")
           Sample.empty_world) = Ok resp ∧
    status resp = 200 ∧
    dig ["type"] (body resp) = Some (VStr "video") ∧
    dig ["stats"; "detected_objects"] (body resp) = Some (VList []).
Proof.
  destruct (upload_file Sample.healthy (Sample.upload "clip.MP4" "video")
              Sample.empty_world) as [[resp|e] w'] eqn:Hrun.
  - pose proof Hrun as Hval. vm_compute in Hval. injection Hval as Hresp _.
    assert (status resp = 200) as Hstatus by (by rewrite <- Hresp).
    exists resp. split; [done|]. split; [done|].
    by apply (video_detected_objects_empty Sample.healthy
                (Sample.upload "clip.MP4" "video") Sample.empty_world resp w').
  - vm_compute in Hrun. discriminate.
Defined.

(** X17. The handler passes the clamped resolution on: a video-mode
    upload answered 200 reports, in its stats, the native width and height
    of the stored upload, each one less when odd. *)
Lemma upload_video_resolution (E : env) (req : request) (w : world)
    (resp : response) (w' : world) :
  mode_of req = "video" →
  upload_file E req w = (Ok resp, w') →
  status resp = 200 →
  ∃ file cap W H,
    files req !! "file" = Some file ∧
    cv_VideoCapture E (Some (payload file)) = Ok cap ∧
    cap_width cap = Ok W ∧ cap_height cap = Ok H ∧
    dig ["stats"; "resolution"] (body resp) =
      Some (VStr (PyStr.of_int (clamp_even W) +:+ "x"
                  +:+ PyStr.of_int (clamp_even H))).
Proof.
  intros Hmode. rewrite upload_file_cases, Hmode.
  destruct (files req !! "file") as [file|]; [|by intros [= <- _]].
  destruct (String.eqb (filename file) ""); [by intros [= <- _]|].
  destruct (allowed_file _ _) as [[|]|e];
    [|by intros [= <- _]|by intros [= <- _]].
  destruct (save_error E); [by intros [= <- _]|].
  destruct (processing _ _ _ _ _ _ _) as [[resp'|e] w1] eqn:Hproc;
    [|rewrite processing_except_run; by intros [= <- _]].
  intros [= -> ->] _.
  unfold processing in Hproc. simpl in Hproc.
  unfold process_video_upload in Hproc. unfold bind at 1 in Hproc.
  rewrite process_video_unfold in Hproc.
  destruct (process_video_try _ _ _ _) as [[v|e] s] eqn:Htry; [|done].
  apply process_video_try_Ok in Htry
    as (cap & fps & W & H & Hcap & _ & HW & HH & ->).
  simpl in Hcap. rewrite lookup_insert_eq in Hcap.
  run. injection Hproc as <- _.
  exists file, cap, W, H. do 4 (split; [done|]).
  destruct (even_or_pred_clamp W) as (<- & _).
  destruct (even_or_pred_clamp H) as (<- & _).
  done.
Qed.

(** C5. An image-mode upload answered 200 reports, as [detected_objects],
    the class names of the boxes of the first detection result, each name
    once: the list has no duplicates, is no longer than the list of boxes,
    and holds exactly the names of the boxes. *)
Theorem image_detected_objects_unique (E : env) (req : request) (w : world)
    (resp : response) (w' : world) :
  mode_of req = "image" →
  upload_file E req w = (Ok resp, w') →
  status resp = 200 →
  ∃ file results r0 l,
    files req !! "file" = Some file ∧
    model_file E (Some (payload file)) = Ok results ∧
    results !! 0%nat = Some r0 ∧
    dig ["stats"; "detected_objects"] (body resp) = Some (VList (VStr <$> l)) ∧
    NoDup l ∧
    (length l <= length (boxes r0))%nat ∧
    ∀ name, name ∈ l ↔ ∃ b, b ∈ boxes r0 ∧ names r0 !! cls b = Some name.
Proof.
  intros Hmode. rewrite upload_file_cases, Hmode.
  destruct (files req !! "file") as [file|]; [|by intros [= <- _]].
  destruct (String.eqb (filename file) ""); [by intros [= <- _]|].
  destruct (allowed_file _ _) as [[|]|e];
    [|by intros [= <- _]|by intros [= <- _]].
  destruct (save_error E); [by intros [= <- _]|].
  destruct (processing _ _ _ _ _ _ _) as [[resp'|e] w1] eqn:Hproc;
    [|rewrite processing_except_run; by intros [= <- _]].
  intros [= -> ->] _.
  unfold processing in Hproc. simpl in Hproc.
  unfold process_image, model_path, imwrite in Hproc.
  unfold bind at 1 in Hproc. simpl fs in Hproc.
  rewrite lookup_insert_eq in Hproc.
  destruct (model_file E (Some (payload file))) as [results|] eqn:Hmodel; [|done].
  unfold bind at 1, lift at 1, index at 1 in Hproc.
  destruct (results !! 0%nat) as [r0|] eqn:Hr0; [|done].
  run. next_outcome Hproc; [|done]. next_outcome Hproc; [|done].
  assert (∃ s t, collect_names r0 (boxes r0) ∅ = Ok s ∧
                 resp.(body) =
                   VDict [("type", VStr "image");
                          ("original", VStr ("/static/uploads/" +:+ stored_name E file));
                          ("result", VStr ("/static/results/" +:+ "result_" +:+ stored_name E file));
                          ("stats",
                           VDict [("inference_time", VFloat t);
                                  ("resolution",
                                   VStr (PyStr.of_int (snd (orig_shape r0)) +:+ "x"
                                         +:+ PyStr.of_int (fst (orig_shape r0))));
                                  ("detected_objects", VList (VStr <$> elements s))])])
    as (s & t & Hnames & ->).
  { destruct a0 as [data|]; simpl in Hproc;
      (next_outcome Hproc; [|done]); (next_outcome Hproc; [|done]);
      injection Hproc as <- _; eauto. }
  apply collect_names_Ok in Hnames as [Hmem Hsize].
  exists file, results, r0, (elements s).
  do 4 (split; [done|]). split; [apply NoDup_elements|].
  split; [exact Hsize|].
  intros name. rewrite elem_of_elements, Hmem. split; [|by right].
  intros [Hempty|?]; [|done]. by apply not_elem_of_empty in Hempty.
Qed.

(** An image with three boxes, two of them of the same class. *)
Lemma image_detected_objects_unique_witness :
  ∃ resp,
    fst (upload_file Sample.healthy (Sample.upload "photo.JPG" "image")
           Sample.empty_world) = Ok resp ∧
    status resp = 200 ∧
    ∃ file results r0 l,
      files (Sample.upload "photo.JPG" "image") !! "file" = Some file ∧
      model_file Sample.healthy (Some (payload file)) = Ok results ∧
      results !! 0%nat = Some r0 ∧
      dig ["stats"; "detected_objects"] (body resp) = Some (VList (VStr <$> l)) ∧
      NoDup l ∧
      (length l <= length (boxes r0))%nat ∧
      ∀ name, name ∈ l ↔ ∃ b, b ∈ boxes r0 ∧ names r0 !! cls b = Some name.
Proof.
  destruct (upload_file Sample.healthy (Sample.upload "photo.JPG" "image")
              Sample.empty_world) as [[resp|e] w'] eqn:Hrun.
  - pose proof Hrun as Hval. vm_compute in Hval. injection Hval as Hresp _.
    assert (status resp = 200) as Hstatus by (by rewrite <- Hresp).
    exists resp. split; [done|]. split; [done|].
    by apply (image_detected_objects_unique Sample.healthy
                (Sample.upload "photo.JPG" "image") Sample.empty_world resp w').
  - vm_compute in Hrun. discriminate.
Defined.

(** C10. In image mode the value [cv2.imwrite] returns is not looked at:
    when the detection, the rendering and the statistics succeed, the
    request is answered 200 with the path of the result file whatever
    [cv2.imwrite] returned, and when it returned False no file is put at
    that path. *)
Theorem imwrite_status_unchecked (E : env) (req : request) (file : file_storage)
    (w : world) (detections : list results) (r0 : results)
    (im_array : ndarray) (written : option bytes) (objects : gset string)
    (inference_time : pyfloat) :
  files req !! "file" = Some file →
  mode_of req = "image" →
  allowed_file (filename file) "image" = Ok true →
  save_error E = None →
  model_file E (Some (payload file)) = Ok detections →
  detections !! 0%nat = Some r0 →
  plot r0 = Ok im_array →
  cv_imwrite E (result_path_of E file) im_array = Ok written →
  collect_names r0 (boxes r0) ∅ = Ok objects →
  speed r0 !! "inference" = Some inference_time →
  ∃ w',
    upload_file E req w =
      (Ok {| body :=
               VDict [("type", VStr "image");
                      ("original", VStr ("/static/uploads/" +:+ stored_name E file));
                      ("result", VStr ("/static/results/result_" +:+ stored_name E file));
                      ("stats",
                       VDict [("inference_time", VFloat inference_time);
                              ("resolution",
                               VStr (PyStr.of_int (snd (orig_shape r0)) +:+ "x"
                                     +:+ PyStr.of_int (fst (orig_shape r0))));
                              ("detected_objects", VList (VStr <$> elements objects))])];
             status := 200 |}, w') ∧
    (written = None →
     fs w' !! result_path_of E file = fs w !! result_path_of E file).
Proof.
  intros Hfile Hmode Hallowed Hsave Hmodel Hr0 Hplot Hwrite Hnames Hspeed.
  rewrite upload_file_cases, Hfile, Hmode, Hallowed, Hsave.
  assert (String.eqb (filename file) "" = false) as ->.
  { apply String.eqb_neq. intros Hname. by rewrite Hname in Hallowed. }
  unfold processing. simpl String.eqb. cbv iota.
  unfold process_image, model_path, imwrite, index, subscript. run.
  rewrite lookup_insert_eq, Hmodel, Hr0, Hplot, Hwrite.
  destruct written as [data|]; simpl; rewrite Hnames, Hspeed.
  - eexists. split; [reflexivity|]. done.
  - eexists. split; [reflexivity|]. intros _. simpl.
    apply lookup_insert_ne, upload_path_ne_result_path.
Qed.

(** [cv2.imwrite] returns False: the answer is 200 with a result path, and
    there is no file at that path. *)
Lemma imwrite_status_unchecked_witness :
  ∃ resp w',
    upload_file Sample.silent_imwrite (Sample.upload "photo.JPG" "image")
      Sample.empty_world = (Ok resp, w') ∧
    status resp = 200 ∧
    dig ["result"] (body resp) =
      Some (VStr "/static/results/result_0b5e1c1e-7d5f-4b0a-9d43-2f6f0c1a8e11.jpg") ∧
    fs w' !! "static/results/result_0b5e1c1e-7d5f-4b0a-9d43-2f6f0c1a8e11.jpg" = None.
Proof.
  destruct (imwrite_status_unchecked Sample.silent_imwrite
              (Sample.upload "photo.JPG" "image")
              {| filename := "photo.JPG"; payload := [Byte.x89; Byte.x50] |}
              Sample.empty_world [Sample.three_boxes] Sample.three_boxes
              [Byte.x2a] None {[ "cat"; "dog" ]} (Float 4617315517961601024))
    as (w' & Hrun & Hfs); [vm_compute; reflexivity..|].
  eexists _, w'. split; [exact Hrun|]. split; [reflexivity|].
  split; [reflexivity|]. apply (Hfs eq_refl).
Defined.

(** C9. Once an upload is stored, under the identifier drawn for the
    request and its lower-cased original extension, the handler leaves
    the stored file as it is: whatever the outcome of the request, the
    file is still there with the uploaded contents when the handler
    returns.  The cleanup path removes the result file only. *)
Theorem stored_upload_preserved (E : env) (req : request) (file : file_storage)
    (w : world) (r : outcome response) (w' : world) :
  files req !! "file" = Some file →
  allowed_file (filename file) (mode_of req) = Ok true →
  save_error E = None →
  upload_file E req w = (r, w') →
  (∃ stem suffix,
     filename file = stem +:+ "." +:+ suffix ∧
     PyStr.contains "." suffix = false ∧
     stored_name E file = uuid4 E +:+ "." +:+ PyStr.lower suffix) ∧
  upload_path_of E file ≠ result_path_of E file ∧
  fs w' !! upload_path_of E file = Some (payload file).
Proof.
  intros Hfile Hallowed Hsave.
  rewrite upload_file_cases, Hfile, Hallowed, Hsave.
  assert (String.eqb (filename file) "" = false) as ->.
  { apply String.eqb_neq. intros Hname. by rewrite Hname in Hallowed. }
  intros Hrun. split; [|split; [apply upload_path_ne_result_path|]].
  - destruct (PyStr.contains "." (filename file)) eqn:Hdot;
      [|by rewrite allowed_file_no_dot in Hallowed].
    destruct (rsplit1_contains _ _ Hdot) as (stem & suffix & Hname & Hno & _).
    exists stem, suffix. split; [done|]. split; [done|].
    unfold stored_name, extension. by rewrite Hname, rcut_app.
  - destruct (processing _ _ _ _ _ _ _) as [[resp|e] w1] eqn:Hproc.
    + injection Hrun as _ <-.
      rewrite (processing_fs _ _ _ _ _ _ _ _ _ Hproc)
        by apply upload_path_ne_result_path.
      simpl. apply lookup_insert_eq.
    + rewrite processing_except_run in Hrun. injection Hrun as _ <-. simpl.
      rewrite lookup_delete_ne
        by (apply not_eq_sym, upload_path_ne_result_path).
      rewrite (processing_fs _ _ _ _ _ _ _ _ _ Hproc)
        by apply upload_path_ne_result_path.
      simpl. apply lookup_insert_eq.
Qed.

(** The stored upload survives a video whose second frame cannot be
    read. *)
Lemma stored_upload_preserved_witness :
  fst (upload_file Sample.failing_video (Sample.upload "clip.MP4" "video")
         Sample.empty_world) =
    Ok {| body := VDict [("error", VStr "Error processing file");
                         ("details", VStr "'bool' object is not subscriptable")];
          status := 500 |} ∧
  fs (snd (upload_file Sample.failing_video (Sample.upload "clip.MP4" "video")
             Sample.empty_world))
    !! "static/uploads/0b5e1c1e-7d5f-4b0a-9d43-2f6f0c1a8e11.mp4" =
    Some [Byte.x89; Byte.x50].
Proof.
  split; [vm_compute; reflexivity|].
  apply (stored_upload_preserved Sample.failing_video
           (Sample.upload "clip.MP4" "video")
           {| filename := "clip.MP4"; payload := [Byte.x89; Byte.x50] |}
           Sample.empty_world
           (fst (upload_file Sample.failing_video
                   (Sample.upload "clip.MP4" "video") Sample.empty_world))
           (snd (upload_file Sample.failing_video
                   (Sample.upload "clip.MP4" "video") Sample.empty_world)));
    reflexivity.
Defined.

(** A turn that raises aborts the frame loop. *)
Lemma frame_loop_raises (E : env) (out : string) (reads : list (outcome ndarray)) :
  ∀ s i read,
    reads !! i = Some read →
    frame_raises E read = true →
    ∃ e s', frame_loop E out reads s = (Raise e, s').
Proof.
  induction reads as [|first reads IH]; intros s i read Hi Hraises; [done|].
  simpl. unfold writer_write. run.
  destruct first as [frame|e] eqn:Hfirst; [|eauto].
  destruct (model_frame E frame) as [results|e] eqn:Hmodel; [|eauto].
  destruct (index results 0) as [r0|e] eqn:Hr0; [|eauto].
  destruct (plot r0) as [im_array|e] eqn:Hplot; [|eauto].
  destruct (cv_write E im_array) as [chunk|e] eqn:Hwrite; [|eauto].
  destruct i as [|i]; simpl in Hi.
  - injection Hi as <-. simpl in Hraises.
    by rewrite Hmodel, Hr0, Hplot, Hwrite in Hraises.
  - eapply IH; eauto.
Qed.

(** A failure of the capture, of the writer or of a turn of the loop makes
    the [try] body of [process_video] raise. *)
Lemma process_video_try_raises (E : env) (file : file_storage) (w : world) :
  processing_fails E file "video" →
  fs w !! upload_path_of E file = Some (payload file) →
  ∃ e s,
    process_video_try E (upload_path_of E file) (result_path_of E file)
      (pv_start w) = (Raise e, s).
Proof.
  intros Hfails Hstored.
  unfold process_video_try, open_capture, open_writer. run. rewrite Hstored.
  destruct Hfails as [Hmode _|_ Hopen|cap fps W H _ Hcap Hfps HW HH Hopen
                     |cap i read _ Hcap Hi Hraises].
  - done.
  - destruct (cv_VideoCapture _ _); [done|eauto].
  - rewrite Hcap. simpl. rewrite Hfps, HW, HH.
    destruct (even_or_pred_clamp W) as (-> & _).
    destruct (even_or_pred_clamp H) as (-> & _).
    destruct (cv_VideoWriter _ _ _ _); [done|eauto].
  - rewrite Hcap. simpl.
    destruct (cap_fps cap); [|eauto].
    destruct (cap_width cap); [|eauto].
    destruct (cap_height cap); [|eauto].
    destruct (cv_VideoWriter _ _ _ _); [|eauto].
    edestruct (frame_loop_raises E (result_path_of E file) (cap_frames cap))
      as (e & s' & ->); eauto.
Qed.

(** A failure makes the body of the inner [try] raise. *)
Lemma processing_raises (E : env) (file : file_storage) (mode : string) (w : world) :
  processing_fails E file mode →
  fs w !! upload_path_of E file = Some (payload file) →
  ∃ e w',
    processing E mode (stored_name E file) ("result_" +:+ stored_name E file)
      (upload_path_of E file) (result_path_of E file) w = (Raise e, w').
Proof.
  intros Hfails Hstored. unfold processing.
  destruct (String.eqb_spec mode "image") as [->|Hmode].
  - destruct Hfails as [_ Hdetect|Hmode _|? ? ? ? Hmode|? ? ? Hmode]; try done.
    unfold process_image, model_path. run. rewrite Hstored.
    destruct (model_file _ _); [done|eauto].
  - assert (mode = "video") as -> by (by destruct Hfails).
    destruct (process_video_try_raises _ _ _ Hfails Hstored) as (e & s & Htry).
    unfold process_video_upload. unfold bind at 1.
    rewrite process_video_unfold, Htry. run. eauto.
Qed.

(** C2. A request that reaches processing (the file part is there, the
    validator accepts it, the upload is stored) and then fails (the
    detection call on the image raises, the capture or the writer of the
    video cannot be opened, or a turn of the frame loop raises) is
    answered 500 with an [error] field, and no file is left at the result
    path. *)
Theorem processing_failure_500 (E : env) (req : request) (file : file_storage)
    (w : world) :
  files req !! "file" = Some file →
  allowed_file (filename file) (mode_of req) = Ok true →
  save_error E = None →
  processing_fails E file (mode_of req) →
  ∃ details w',
    upload_file E req w =
      (Ok {| body := VDict [("error", VStr "Error processing file");
                            ("details", VStr details)];
             status := 500 |}, w') ∧
    fs w' !! result_path_of E file = None.
Proof.
  intros Hfile Hallowed Hsave Hfails.
  rewrite upload_file_cases, Hfile, Hallowed, Hsave.
  assert (String.eqb (filename file) "" = false) as ->.
  { apply String.eqb_neq. intros Hname. by rewrite Hname in Hallowed. }
  edestruct (processing_raises E file (mode_of req)
               (set_fs <[upload_path_of E file := payload file]> w))
    as (e & w1 & ->); [done|apply lookup_insert_eq|].
  rewrite processing_except_run. eexists _, _. split; [done|].
  simpl. apply lookup_delete_eq.
Qed.

(** The second frame of a clip cannot be read: the writer has created the
    result file and one frame is in it when the loop aborts. *)
Lemma processing_failure_500_witness :
  ∃ details w',
    upload_file Sample.failing_video (Sample.upload "clip.MP4" "video")
      Sample.empty_world =
      (Ok {| body := VDict [("error", VStr "Error processing file");
                            ("details", VStr details)];
             status := 500 |}, w') ∧
    fs w' !! "static/results/result_0b5e1c1e-7d5f-4b0a-9d43-2f6f0c1a8e11.mp4" = None.
Proof.
  apply (processing_failure_500 Sample.failing_video
           (Sample.upload "clip.MP4" "video")
           {| filename := "clip.MP4"; payload := [Byte.x89; Byte.x50] |}
           Sample.empty_world); [vm_compute; reflexivity..|].
  apply (mid_video_fails _ _ _ Sample.broken 1%nat (Raise (ExtError "codec error")));
    reflexivity.
Defined.

(** * Further properties of the code *)

(** ** The validator *)

Lemma lower_ascii_idem (c : ascii) :
  PyStr.lower_ascii (PyStr.lower_ascii c) = PyStr.lower_ascii c.
Proof. by destruct c as [[] [] [] [] [] [] [] []]. Qed.

Lemma lower_ascii_dot (c : ascii) :
  Ascii.eqb (PyStr.lower_ascii c) "." = Ascii.eqb c ".".
Proof. by destruct c as [[] [] [] [] [] [] [] []]. Qed.

Lemma lower_idem (s : string) : PyStr.lower (PyStr.lower s) = PyStr.lower s.
Proof. induction s as [|c s IH]; simpl; [done|]. by rewrite lower_ascii_idem, IH. Qed.

Lemma contains_dot_lower (s : string) :
  PyStr.contains "." (PyStr.lower s) = PyStr.contains "." s.
Proof. induction s as [|c s IH]; simpl; [done|]. by rewrite lower_ascii_dot, IH. Qed.

(** What an acceptance says about the filename and the mode. *)
Lemma allowed_file_true_inv (filename mode : string) :
  allowed_file filename mode = Ok true →
  ∃ exts stem suffix,
    allow_list mode = Some exts ∧
    filename = stem +:+ "." +:+ suffix ∧
    PyStr.contains "." suffix = false ∧
    PyStr.lower suffix ∈ exts.
Proof.
  intros Hacc.
  destruct (PyStr.contains "." filename) eqn:Hdot;
    [|by rewrite allowed_file_no_dot in Hacc].
  destruct (rsplit1_contains _ _ Hdot) as (stem & suffix & -> & Hno & _).
  change (stem +:+ String "." suffix) with (stem +:+ "." +:+ suffix) in *.
  rewrite allowed_file_dotted in Hacc by done.
  destruct (allow_list mode) as [exts|]; [|done].
  injection Hacc as Hacc. apply bool_decide_eq_true in Hacc.
  by exists exts, stem, suffix.
Qed.

(** A mode that has an allow-list is [image] or [video]. *)
Lemma allow_list_Some (mode : string) (exts : gset string) :
  allow_list mode = Some exts → mode = "image" ∨ mode = "video".
Proof. unfold allow_list. repeat case_decide; naive_solver. Qed.


Lemma allow_list_image : allow_list "image" = Some {[ "png"; "jpg"; "jpeg" ]}.
Proof. reflexivity. Qed.

Lemma allow_list_video :
  allow_list "video" = Some {[ "mp4"; "mov"; "avi"; "webm" ]}.
Proof. reflexivity. Qed.

(** X2. No filename is accepted both as an image and as a video: a
    filename accepted in one of the two modes is rejected in the other. *)
Theorem allowed_file_modes_exclusive (filename : string) :
  (allowed_file filename "image" = Ok true →
   allowed_file filename "video" = Ok false) ∧
  (allowed_file filename "video" = Ok true →
   allowed_file filename "image" = Ok false).
Proof.
  split; intros Hacc;
    apply allowed_file_true_inv in Hacc
      as (exts & stem & suffix & Hexts & -> & Hno & Hin).
  - rewrite allow_list_image in Hexts. injection Hexts as <-.
    rewrite allowed_file_dotted, allow_list_video by done.
    f_equal. apply bool_decide_eq_false_2. intros Hin'.
    set_unfold. destruct_or!; congruence.
  - rewrite allow_list_video in Hexts. injection Hexts as <-.
    rewrite allowed_file_dotted, allow_list_image by done.
    f_equal. apply bool_decide_eq_false_2. intros Hin'.
    set_unfold. destruct_or!; congruence.
Qed.

Lemma allowed_file_modes_exclusive_witness :
  allowed_file "photo.JPG" "image" = Ok true ∧
  allowed_file "photo.JPG" "video" = Ok false.
Proof.
  split; [reflexivity|].
  apply (allowed_file_modes_exclusive "photo.JPG"). reflexivity.
Defined.

(** X3. The names the handler gives to the stored upload and to the
    result file pass the validator again in the same mode: the stored
    extension is the lower-cased original one, it has no dot, and lower
    case is idempotent. *)
Theorem stored_names_allowed (E : env) (file : file_storage) (mode : string) :
  allowed_file (filename file) mode = Ok true →
  allowed_file (stored_name E file) mode = Ok true ∧
  allowed_file ("result_" +:+ stored_name E file) mode = Ok true.
Proof.
  intros Hacc.
  apply allowed_file_true_inv in Hacc
    as (exts & stem & suffix & Hexts & Hname & Hno & Hin).
  assert (stored_name E file = uuid4 E +:+ "." +:+ PyStr.lower suffix) as ->.
  { unfold stored_name, extension. rewrite Hname.
    change (stem +:+ "." +:+ suffix) with (stem +:+ String "." suffix).
    by rewrite rcut_app. }
  assert (PyStr.contains "." (PyStr.lower suffix) = false) as Hno'
    by (by rewrite contains_dot_lower).
  change ("result_" +:+ uuid4 E +:+ "." +:+ PyStr.lower suffix)
    with (("result_" +:+ uuid4 E) +:+ "." +:+ PyStr.lower suffix).
  rewrite !allowed_file_dotted, Hexts, lower_idem by done.
  by rewrite bool_decide_eq_true_2.
Qed.

Lemma stored_names_allowed_witness :
  allowed_file "0b5e1c1e-7d5f-4b0a-9d43-2f6f0c1a8e11.mp4" "video" = Ok true ∧
  allowed_file "result_0b5e1c1e-7d5f-4b0a-9d43-2f6f0c1a8e11.mp4" "video" = Ok true.
Proof.
  apply (stored_names_allowed Sample.healthy (MoreSamples.the_file "clip.MP4") "video").
  reflexivity.
Defined.

(** ** The paths of the handler *)

(** The video pipeline logs nothing when it returns stats, and one entry,
    the cause, when it returns [False]. *)
Lemma process_video_log (E : env) (input_path output_path : string)
    (w : world) (r : outcome pyval) (w' : world) :
  process_video E input_path output_path w = (r, w') →
  (∃ stats, r = Ok (VDict stats) ∧ log w' = log w) ∨
  (∃ e, r = Ok (VBool false) ∧
        log w' = log w ++ [LogError ("视频处理错误: " +:+ str_exn e)]).
Proof.
  rewrite process_video_unfold.
  destruct (process_video_try _ _ _ _) as [[v|e] s] eqn:Htry;
    intros Hret; apply pair_eq_inv in Hret as [<- <-];
    rewrite log_process_video_finally;
    destruct (process_video_try_frame _ _ _ _ _ _ Htry) as [Hlog _].
  - left. apply process_video_try_Ok in Htry
      as (cap & fps & W & H & _ & _ & _ & _ & ->). eauto.
  - right. exists e. simpl. by rewrite Hlog.
Qed.

(** Processing keeps the handles balanced and only ever appends to the
    log. *)
Lemma processing_effects (E : env) (mode name result_name upload_path result_path : string)
    (w : world) (r : outcome response) (w' : world) :
  processing E mode name result_name upload_path result_path w = (r, w') →
  handles w' = handles w ∧ ∃ entries, log w' = log w ++ entries.
Proof.
  unfold processing. destruct (String.eqb mode "image").
  - unfold process_image, model_path, imwrite. run. intros Hrun.
    assert (handles w' = handles w ∧ log w' = log w) as [-> ->];
      [|split; [done|]; exists []; by rewrite app_nil_r].
    repeat (next_outcome Hrun; [|by injection Hrun as _ <-]).
    destruct a2 as [data|]; simpl in Hrun;
      repeat (next_outcome Hrun; [|by injection Hrun as _ <-]);
      by injection Hrun as _ <-.
  - unfold process_video_upload. unfold bind at 1. intros Hrun.
    destruct (process_video _ _ _ _) as [rv w1] eqn:Hpv.
    pose proof (process_video_handles _ _ _ _ _ _ Hpv) as Hhandles.
    assert (∃ entries, log w1 = log w ++ entries) as Hlog.
    { destruct (process_video_log _ _ _ _ _ _ Hpv)
        as [(stats & _ & ->)|(e & _ & ->)]; [exists []|eauto].
      by rewrite app_nil_r. }
    assert (w' = w1) as ->; [|done].
    destruct rv as [v|e]; [|by injection Hrun as _ <-].
    run. repeat (next_outcome Hrun; [|by injection Hrun as _ <-]).
    by injection Hrun as _ <-.
Qed.

(** What a response of the processing stage looks like: it is a 200 whose
    body has the type of the branch taken, the two URLs and the stats, and
    nothing was logged on the way. *)
Lemma processing_Ok (E : env) (mode name result_name upload_path result_path : string)
    (w : world) (resp : response) (w' : world) :
  processing E mode name result_name upload_path result_path w = (Ok resp, w') →
  status resp = 200 ∧
  (∃ stats,
     body resp =
       VDict [("type", VStr (if String.eqb mode "image" then "image" else "video"));
              ("original", VStr ("/static/uploads/" +:+ name));
              ("result", VStr ("/static/results/" +:+ result_name));
              ("stats", VDict stats)]) ∧
  log w' = log w.
Proof.
  unfold processing. destruct (String.eqb mode "image").
  - unfold process_image, model_path, imwrite. run. intros Hrun.
    repeat (next_outcome Hrun; [|done]).
    destruct a2 as [data|]; simpl in Hrun;
      repeat (next_outcome Hrun; [|done]);
      injection Hrun as <- <-; eauto.
  - unfold process_video_upload. unfold bind at 1. intros Hrun.
    destruct (process_video _ _ _ _) as [rv w1] eqn:Hpv.
    destruct (process_video_log _ _ _ _ _ _ Hpv)
      as [(stats & -> & Hlog)|(e & -> & _)]; [|done].
    run. repeat (next_outcome Hrun; [|done]).
    injection Hrun as <- <-. eauto.
Qed.

(** The six ways a request ends. *)
Lemma upload_file_inv (E : env) (req : request) (w : world)
    (r : outcome response) (w' : world) :
  upload_file E req w = (r, w') →
  (files req !! "file" = None ∧ r = Ok (response_400 "No file part") ∧ w' = w) ∨
  ∃ file, files req !! "file" = Some file ∧
    ((filename file = "" ∧ r = Ok (response_400 "No selected file") ∧ w' = w) ∨
     (filename file ≠ "" ∧
      allowed_file (filename file) (mode_of req) = Ok false ∧
      r = Ok (response_400 ("Invalid file type for " +:+ mode_of req +:+ " mode")) ∧
      w' = w) ∨
     (∃ e, filename file ≠ "" ∧
           (allowed_file (filename file) (mode_of req) = Raise e ∨
            allowed_file (filename file) (mode_of req) = Ok true ∧
            save_error E = Some e) ∧
           r = Ok {| body := VDict [("error", VStr "Internal server error")];
                     status := 500 |} ∧
           w' = logger_error (LogTraceback e)
                  (logger_error (LogError ("Unexpected error: " +:+ str_exn e)) w)) ∨
     (∃ resp, allowed_file (filename file) (mode_of req) = Ok true ∧
              save_error E = None ∧
              processing E (mode_of req) (stored_name E file)
                ("result_" +:+ stored_name E file)
                (upload_path_of E file) (result_path_of E file)
                (set_fs <[upload_path_of E file := payload file]> w) = (Ok resp, w') ∧
              r = Ok resp) ∨
     (∃ e w1, allowed_file (filename file) (mode_of req) = Ok true ∧
              save_error E = None ∧
              processing E (mode_of req) (stored_name E file)
                ("result_" +:+ stored_name E file)
                (upload_path_of E file) (result_path_of E file)
                (set_fs <[upload_path_of E file := payload file]> w) = (Raise e, w1) ∧
              r = Ok {| body := VDict [("error", VStr "Error processing file");
                                       ("details", VStr (str_exn e))];
                        status := 500 |} ∧
              w' = set_fs (delete (result_path_of E file))
                     (logger_error (LogTraceback e)
                        (logger_error
                           (LogError ("Error processing file: " +:+ str_exn e)) w1)))).
Proof.
  rewrite upload_file_cases.
  destruct (files req !! "file") as [file|]; [|intros [= <- <-]; by left].
  intros Hrun. right. exists file. split; [done|].
  destruct (String.eqb_spec (filename file) "") as [Hname|Hname].
  { injection Hrun as <- <-. by left. }
  right.
  destruct (allowed_file _ _) as [[|]|e] eqn:Hallowed.
  - right. destruct (save_error E) as [e|] eqn:Hsave.
    + left. rewrite upload_except_run in Hrun. injection Hrun as <- <-.
      exists e. eauto 10.
    + right.
      destruct (processing _ _ _ _ _ _ _) as [[resp|e] w1] eqn:Hproc.
      * left. injection Hrun as <- <-. eauto.
      * right. rewrite processing_except_run in Hrun. injection Hrun as <- <-.
        exists e, w1. eauto 10.
  - left. by injection Hrun as <- <-.
  - right. left. rewrite upload_except_run in Hrun. injection Hrun as <- <-.
    exists e. eauto 10.
Qed.

(** ** The handler as a whole *)

(** X4. The handler never raises: every request is answered 200, 400 or
    500.  A 200 has stats and no [error] field; a 400 or a 500 has an
    [error] field that is a string. *)
Theorem upload_file_never_raises (E : env) (req : request) (w : world) :
  ∃ resp w',
    upload_file E req w = (Ok resp, w') ∧
    ((status resp = 200 ∧
      dig ["error"] (body resp) = None ∧
      ∃ stats, dig ["stats"] (body resp) = Some (VDict stats)) ∨
     ((status resp = 400 ∨ status resp = 500) ∧
      ∃ message, dig ["error"] (body resp) = Some (VStr message))).
Proof.
  destruct (upload_file E req w) as [r w'] eqn:Hrun.
  destruct (upload_file_inv _ _ _ _ _ Hrun)
    as [(_ & -> & _)|(file & _ & [(_ & -> & _)|[(_ & _ & -> & _)
       |[(e & _ & _ & -> & _)|[(resp & _ & _ & Hproc & ->)
       |(e & w1 & _ & _ & _ & -> & _)]]]])];
    eexists _, _; (split; [done|]); try (right; simpl; by eauto).
  apply processing_Ok in Hproc as (Hstatus & (stats & ->) & _).
  left. simpl. eauto.
Qed.

(** X5. A request answered 400 has changed nothing: no file is stored,
    nothing is logged, no handle is held. *)
Theorem client_error_no_effect (E : env) (req : request) (w : world)
    (resp : response) (w' : world) :
  upload_file E req w = (Ok resp, w') →
  status resp = 400 →
  w' = w.
Proof.
  intros Hrun Hstatus.
  destruct (upload_file_inv _ _ _ _ _ Hrun)
    as [(_ & _ & ->)|(file & _ & [(_ & _ & ->)|[(_ & _ & _ & ->)
       |[(e & _ & _ & [= ->] & _)|[(resp' & _ & _ & Hproc & [= ->])
       |(e & w1 & _ & _ & _ & [= ->] & _)]]]])]; try done.
  apply processing_Ok in Hproc as (Hstatus' & _). congruence.
Qed.

Lemma client_error_no_effect_witness :
  snd (upload_file Sample.healthy (Sample.upload "photo.GIF" "image")
         MoreSamples.used_world) = MoreSamples.used_world.
Proof.
  apply (client_error_no_effect Sample.healthy (Sample.upload "photo.GIF" "image")
           MoreSamples.used_world
           (response_400 "Invalid file type for image mode")); reflexivity.
Defined.

(** X6. A request without a [file] part is answered 400 with exactly
    [{"error": "No file part"}], whatever else it carries. *)
Theorem no_file_part_400 (E : env) (req : request) (w : world) :
  files req !! "file" = None →
  upload_file E req w =
    (Ok {| body := VDict [("error", VStr "No file part")]; status := 400 |}, w).
Proof. intros Hfile. by rewrite upload_file_cases, Hfile. Qed.

Lemma no_file_part_400_witness :
  upload_file MoreSamples.disk_full MoreSamples.no_file_part MoreSamples.used_world =
    (Ok {| body := VDict [("error", VStr "No file part")]; status := 400 |},
     MoreSamples.used_world).
Proof. apply no_file_part_400. reflexivity. Defined.

(** X7. A request without a [mode] field is handled exactly as the same
    request with [mode] set to [image]. *)
Theorem default_mode_is_image (E : env) (req : request) (w : world) :
  form req !! "mode" = None →
  upload_file E req w =
    upload_file E {| files := files req; form := <["mode" := "image"]> (form req) |} w.
Proof.
  intros Hmode. unfold upload_file. simpl.
  by rewrite Hmode, lookup_insert_eq.
Qed.

Lemma default_mode_is_image_witness :
  upload_file Sample.healthy (MoreSamples.no_mode "photo.JPG") Sample.empty_world =
    upload_file Sample.healthy (Sample.upload "photo.JPG" "image") Sample.empty_world.
Proof.
  rewrite (default_mode_is_image Sample.healthy (MoreSamples.no_mode "photo.JPG"))
    by reflexivity.
  reflexivity.
Defined.

(** X8. When storing the upload raises, the request is answered 500 with
    exactly [{"error": "Internal server error"}], the cause and its trace
    are logged, and the result path is left as it was: processing does not
    start. *)
Theorem storage_failure_500 (E : env) (req : request) (file : file_storage)
    (e : exn) (w : world) :
  files req !! "file" = Some file →
  allowed_file (filename file) (mode_of req) = Ok true →
  save_error E = Some e →
  ∃ w',
    upload_file E req w =
      (Ok {| body := VDict [("error", VStr "Internal server error")];
             status := 500 |}, w') ∧
    log w' = log w ++ [LogError ("Unexpected error: " +:+ str_exn e);
                       LogTraceback e] ∧
    fs w' !! result_path_of E file = fs w !! result_path_of E file.
Proof.
  intros Hfile Hallowed Hsave.
  rewrite upload_file_cases, Hfile, Hallowed, Hsave.
  assert (String.eqb (filename file) "" = false) as ->.
  { apply String.eqb_neq. intros Hname. by rewrite Hname in Hallowed. }
  rewrite upload_except_run. eexists. split; [done|]. simpl.
  by rewrite <- app_assoc.
Qed.

Lemma storage_failure_500_witness :
  ∃ w',
    upload_file MoreSamples.disk_full (Sample.upload "photo.JPG" "image")
      MoreSamples.used_world =
      (Ok {| body := VDict [("error", VStr "Internal server error")];
             status := 500 |}, w') ∧
    log w' = log MoreSamples.used_world ++
               [LogError "Unexpected error: No space left on device";
                LogTraceback (ExtError "No space left on device")] ∧
    fs w' !! result_path_of MoreSamples.disk_full (MoreSamples.the_file "photo.JPG") =
      fs MoreSamples.used_world
        !! result_path_of MoreSamples.disk_full (MoreSamples.the_file "photo.JPG").
Proof.
  apply (storage_failure_500 MoreSamples.disk_full (Sample.upload "photo.JPG" "image")
           (MoreSamples.the_file "photo.JPG") (ExtError "No space left on device"));
    reflexivity.
Defined.



(** X10. A request answered 200 had a file part and the mode [image] or
    [video]; the body names that mode as its type and gives the URLs of
    the stored upload and of the result file, built from the stored name;
    the upload is on disk with the uploaded contents, and nothing was
    logged. *)
Theorem success_response (E : env) (req : request) (w : world)
    (resp : response) (w' : world) :
  upload_file E req w = (Ok resp, w') →
  status resp = 200 →
  ∃ file stats,
    files req !! "file" = Some file ∧
    (mode_of req = "image" ∨ mode_of req = "video") ∧
    body resp =
      VDict [("type", VStr (mode_of req));
             ("original", VStr ("/static/uploads/" +:+ stored_name E file));
             ("result", VStr ("/static/results/result_" +:+ stored_name E file));
             ("stats", VDict stats)] ∧
    fs w' !! upload_path_of E file = Some (payload file) ∧
    log w' = log w.
Proof.
  intros Hrun Hstatus.
  destruct (upload_file_inv _ _ _ _ _ Hrun)
    as [(_ & [= ->] & _)|(file & Hfile & [(_ & [= ->] & _)|[(_ & _ & [= ->] & _)
       |[(e & _ & _ & [= ->] & _)|[(resp' & Hallowed & _ & Hproc & [= ->])
       |(e & w1 & _ & _ & _ & [= ->] & _)]]]])]; try done.
  pose proof (processing_fs _ _ _ _ _ _ _ _ _ Hproc _
                (upload_path_ne_result_path E file)) as Hfs.
  apply processing_Ok in Hproc as (_ & (stats & ->) & Hlog).
  exists file, stats. split; [done|].
  apply allowed_file_true_inv in Hallowed as (exts & _ & _ & Hexts & _).
  apply allow_list_Some in Hexts.
  split; [done|]. split.
  - by destruct Hexts as [-> | ->].
  - split; [|done]. rewrite Hfs. simpl. apply lookup_insert_eq.
Qed.

Lemma success_response_witness :
  ∃ resp w',
    upload_file Sample.healthy (Sample.upload "clip.MP4" "video")
      Sample.empty_world = (Ok resp, w') ∧
    dig ["type"] (body resp) = Some (VStr "video") ∧
    dig ["original"] (body resp) =
      Some (VStr "/static/uploads/0b5e1c1e-7d5f-4b0a-9d43-2f6f0c1a8e11.mp4") ∧
    fs w' !! "static/uploads/0b5e1c1e-7d5f-4b0a-9d43-2f6f0c1a8e11.mp4" =
      Some [Byte.x89; Byte.x50].
Proof.
  destruct (upload_file Sample.healthy (Sample.upload "clip.MP4" "video")
              Sample.empty_world) as [[resp|e] w'] eqn:Hrun.
  - pose proof Hrun as Hval. vm_compute in Hval. injection Hval as Hresp _.
    assert (status resp = 200) as Hstatus by (by rewrite <- Hresp).
    destruct (success_response _ _ _ _ _ Hrun Hstatus)
      as (file & stats & Hfile & _ & Hbody & Hfs & _).
    injection Hfile as <-.
    exists resp, w'. split; [done|]. rewrite Hbody. done.
  - vm_compute in Hrun. discriminate.
Defined.

(** X11. Whatever the outcome of a request, every capture and writer
    handle opened while handling it has been released when the handler
    returns. *)
Theorem upload_file_releases_handles (E : env) (req : request) (w : world)
    (r : outcome response) (w' : world) :
  upload_file E req w = (r, w') →
  handles w' = handles w.
Proof.
  intros Hrun.
  destruct (upload_file_inv _ _ _ _ _ Hrun)
    as [(_ & _ & ->)|(file & _ & [(_ & _ & ->)|[(_ & _ & _ & ->)
       |[(e & _ & _ & _ & ->)|[(resp & _ & _ & Hproc & _)
       |(e & w1 & _ & _ & Hproc & _ & ->)]]]])]; try done;
    apply processing_effects in Hproc as [Hhandles _]; simpl in *; congruence.
Qed.

Lemma upload_file_releases_handles_witness :
  handles (snd (upload_file Sample.failing_video (Sample.upload "clip.MP4" "video")
                  Sample.empty_world)) = 0%nat.
Proof.
  apply (upload_file_releases_handles Sample.failing_video
           (Sample.upload "clip.MP4" "video") Sample.empty_world
           (fst (upload_file Sample.failing_video (Sample.upload "clip.MP4" "video")
                   Sample.empty_world))).
  reflexivity.
Defined.

(** X12. The handler logs on failure and only then: a request answered
    200 or 400 leaves the log as it was, and a request answered 500 has
    appended entries to the log, the last two being the error message and
    the trace of the exception that was caught. *)
Theorem upload_file_logs_failures_only (E : env) (req : request) (w : world)
    (resp : response) (w' : world) :
  upload_file E req w = (Ok resp, w') →
  (status resp ≠ 500 → log w' = log w) ∧
  (status resp = 500 →
   ∃ entries message e,
     log w' = log w ++ entries ++ [LogError message; LogTraceback e]).
Proof.
  intros Hrun.
  destruct (upload_file_inv _ _ _ _ _ Hrun)
    as [(_ & [= ->] & ->)|(file & _ & [(_ & [= ->] & ->)|[(_ & _ & [= ->] & ->)
       |[(e & _ & _ & [= ->] & ->)|[(resp' & _ & _ & Hproc & [= ->])
       |(e & w1 & _ & _ & Hproc & [= ->] & ->)]]]])]; try done.
  - split; [done|]. intros _. exists [], ("Unexpected error: " +:+ str_exn e), e.
    simpl. by rewrite <- app_assoc.
  - apply processing_Ok in Hproc as (Hstatus & _ & Hlog).
    split; [done|]. intros ?. congruence.
  - apply processing_effects in Hproc as (_ & entries & Hlog).
    split; [done|]. intros _.
    exists entries, ("Error processing file: " +:+ str_exn e), e.
    simpl. rewrite Hlog. by rewrite <- !app_assoc.
Qed.

Lemma upload_file_logs_failures_only_witness :
  log (snd (upload_file Sample.failing_video (Sample.upload "clip.MP4" "video")
              Sample.empty_world)) =
    [LogError "视频处理错误: codec error";
     LogError "Error processing file: 'bool' object is not subscriptable";
     LogTraceback (TypeError "'bool' object is not subscriptable")] ∧
  ∃ entries message e,
    log (snd (upload_file Sample.failing_video (Sample.upload "clip.MP4" "video")
                Sample.empty_world)) =
      log Sample.empty_world ++ entries ++ [LogError message; LogTraceback e].
Proof.
  split; [vm_compute; reflexivity|].
  apply (upload_file_logs_failures_only Sample.failing_video
           (Sample.upload "clip.MP4" "video") Sample.empty_world
           {| body := VDict [("error", VStr "Error processing file");
                             ("details", VStr "'bool' object is not subscriptable")];
              status := 500 |}); reflexivity.
Defined.



(** X14. When the detector returns an empty list for an image, taking its
    first element fails: the request is answered 500 with the details
    [list index out of range], and no result file is left. *)
Theorem empty_detection_500 (E : env) (req : request) (file : file_storage)
    (w : world) :
  files req !! "file" = Some file →
  mode_of req = "image" →
  allowed_file (filename file) "image" = Ok true →
  save_error E = None →
  model_file E (Some (payload file)) = Ok [] →
  ∃ w',
    upload_file E req w =
      (Ok {| body := VDict [("error", VStr "Error processing file");
                            ("details", VStr "list index out of range")];
             status := 500 |}, w') ∧
    fs w' !! result_path_of E file = None.
Proof.
  intros Hfile Hmode Hallowed Hsave Hmodel.
  rewrite upload_file_cases, Hfile, Hmode, Hallowed, Hsave.
  assert (String.eqb (filename file) "" = false) as ->.
  { apply String.eqb_neq. intros Hname. by rewrite Hname in Hallowed. }
  unfold processing. simpl String.eqb. cbv iota.
  unfold process_image, model_path, index. run.
  rewrite lookup_insert_eq, Hmodel. simpl.
  rewrite processing_except_run. eexists. split; [done|].
  simpl. apply lookup_delete_eq.
Qed.

Lemma empty_detection_500_witness :
  ∃ w',
    upload_file MoreSamples.no_detection (Sample.upload "photo.JPG" "image")
      Sample.empty_world =
      (Ok {| body := VDict [("error", VStr "Error processing file");
                            ("details", VStr "list index out of range")];
             status := 500 |}, w') ∧
    fs w' !! result_path_of MoreSamples.no_detection (MoreSamples.the_file "photo.JPG")
      = None.
Proof.
  apply (empty_detection_500 MoreSamples.no_detection
           (Sample.upload "photo.JPG" "image") (MoreSamples.the_file "photo.JPG"));
    reflexivity.
Defined.

(** Collecting the names stops at the first box whose class has none. *)
Lemma collect_names_Raise (r : results) (bs : list box) :
  ∀ acc b,
    b ∈ bs → names r !! cls b = None →
    ∃ b', b' ∈ bs ∧ names r !! cls b' = None ∧
          collect_names r bs acc = Raise (KeyError (PyStr.of_int (cls b'))).
Proof.
  induction bs as [|b0 bs IH]; intros acc b Hb Hnone.
  - by apply elem_of_nil in Hb.
  - simpl. unfold subscript_int.
    destruct (names r !! cls b0) as [name|] eqn:Hb0.
    + apply elem_of_cons in Hb as [->|Hb]; [congruence|].
      destruct (IH (acc ∪ {[name]}) b Hb Hnone) as (b' & Hb' & Hnone' & ->).
      exists b'. split; [apply elem_of_cons; by right|done].
    + exists b0. split; [apply elem_of_cons; by left|done].
Qed.

(** X15. When a detected box has a class index that the detector's name
    table does not hold, the image request is answered 500 with that index
    as details; the annotated image, whether or not [cv2.imwrite] had
    written it, is not at the result path afterwards. *)
Theorem unnamed_class_500 (E : env) (req : request) (file : file_storage)
    (w : world) (detections : list results) (r0 : results)
    (im_array : ndarray) (written : option bytes) (b : box) :
  files req !! "file" = Some file →
  mode_of req = "image" →
  allowed_file (filename file) "image" = Ok true →
  save_error E = None →
  model_file E (Some (payload file)) = Ok detections →
  detections !! 0%nat = Some r0 →
  plot r0 = Ok im_array →
  cv_imwrite E (result_path_of E file) im_array = Ok written →
  b ∈ boxes r0 →
  names r0 !! cls b = None →
  ∃ b' w',
    b' ∈ boxes r0 ∧ names r0 !! cls b' = None ∧
    upload_file E req w =
      (Ok {| body := VDict [("error", VStr "Error processing file");
                            ("details", VStr (PyStr.of_int (cls b')))];
             status := 500 |}, w') ∧
    fs w' !! result_path_of E file = None.
Proof.
  intros Hfile Hmode Hallowed Hsave Hmodel Hr0 Hplot Hwrite Hb Hnone.
  destruct (collect_names_Raise r0 (boxes r0) ∅ b Hb Hnone)
    as (b' & Hb' & Hnone' & Hnames).
  exists b'. rewrite upload_file_cases, Hfile, Hmode, Hallowed, Hsave.
  assert (String.eqb (filename file) "" = false) as ->.
  { apply String.eqb_neq. intros Hname. by rewrite Hname in Hallowed. }
  unfold processing. simpl String.eqb. cbv iota.
  unfold process_image, model_path, imwrite, index. run.
  rewrite lookup_insert_eq, Hmodel, Hr0, Hplot, Hwrite.
  destruct written as [data|]; simpl; rewrite Hnames;
    rewrite processing_except_run; eexists;
    (split; [done|]); (split; [done|]); (split; [done|]);
    simpl; apply lookup_delete_eq.
Qed.

Lemma unnamed_class_500_witness :
  ∃ b' w',
    b' ∈ boxes MoreSamples.unnamed_class ∧
    names MoreSamples.unnamed_class !! cls b' = None ∧
    upload_file MoreSamples.nameless (Sample.upload "photo.JPG" "image")
      Sample.empty_world =
      (Ok {| body := VDict [("error", VStr "Error processing file");
                            ("details", VStr (PyStr.of_int (cls b')))];
             status := 500 |}, w') ∧
    fs w' !! result_path_of MoreSamples.nameless (MoreSamples.the_file "photo.JPG")
      = None.
Proof.
  apply (unnamed_class_500 MoreSamples.nameless (Sample.upload "photo.JPG" "image")
           (MoreSamples.the_file "photo.JPG") Sample.empty_world
           [MoreSamples.unnamed_class] MoreSamples.unnamed_class
           [Byte.x2a] (Some [Byte.x2a]) (Box 7)); try reflexivity.
  apply elem_of_cons. right. apply elem_of_cons. by left.
Defined.

(** X16. An image-mode upload answered 200 reports, in its stats, the
    inference time the detector gives under [inference] and the resolution
    as width x height, the detector's shape being (height, width). *)
Theorem image_stats (E : env) (req : request) (w : world)
    (resp : response) (w' : world) :
  mode_of req = "image" →
  upload_file E req w = (Ok resp, w') →
  status resp = 200 →
  ∃ file detections r0 inference_time,
    files req !! "file" = Some file ∧
    model_file E (Some (payload file)) = Ok detections ∧
    detections !! 0%nat = Some r0 ∧
    speed r0 !! "inference" = Some inference_time ∧
    dig ["stats"; "inference_time"] (body resp) = Some (VFloat inference_time) ∧
    dig ["stats"; "resolution"] (body resp) =
      Some (VStr (PyStr.of_int (snd (orig_shape r0)) +:+ "x"
                  +:+ PyStr.of_int (fst (orig_shape r0)))).
Proof.
  intros Hmode Hrun Hstatus.
  destruct (upload_file_inv _ _ _ _ _ Hrun)
    as [(_ & [= ->] & _)|(file & Hfile & [(_ & [= ->] & _)|[(_ & _ & [= ->] & _)
       |[(e & _ & _ & [= ->] & _)|[(resp' & _ & _ & Hproc & [= ->])
       |(e & w1 & _ & _ & _ & [= ->] & _)]]]])]; try done.
  rewrite Hmode in Hproc. unfold processing in Hproc. simpl in Hproc.
  unfold process_image, model_path, imwrite, index, subscript in Hproc.
  run. rewrite lookup_insert_eq in Hproc.
  destruct (model_file E (Some (payload file))) as [detections|] eqn:Hmodel;
    [|done].
  simpl in Hproc.
  destruct (detections !! 0%nat) as [r0|] eqn:Hr0; [|done]. simpl in Hproc.
  next_outcome Hproc; [|done]. next_outcome Hproc; [|done].
  exists file, detections, r0.
  destruct a0 as [data|]; simpl in Hproc;
    (next_outcome Hproc; [|done]);
    (destruct (speed r0 !! "inference") as [t|]; [|done]);
    simpl in Hproc; injection Hproc as <- _; exists t; done.
Qed.

Lemma image_stats_witness :
  ∃ resp,
    fst (upload_file Sample.healthy (Sample.upload "photo.JPG" "image")
           Sample.empty_world) = Ok resp ∧
    dig ["stats"; "resolution"] (body resp) = Some (VStr "639x480").
Proof.
  destruct (upload_file Sample.healthy (Sample.upload "photo.JPG" "image")
              Sample.empty_world) as [[resp|e] w'] eqn:Hrun.
  - pose proof Hrun as Hval. vm_compute in Hval. injection Hval as Hresp _.
    assert (status resp = 200) as Hstatus by (by rewrite <- Hresp).
    destruct (image_stats Sample.healthy (Sample.upload "photo.JPG" "image")
                Sample.empty_world resp w' eq_refl Hrun Hstatus)
      as (file & detections & r0 & t & _ & [= <-] & [= <-] & _ & _ & Hres).
    exists resp. split; [done|]. exact Hres.
  - vm_compute in Hrun. discriminate.
Defined.

(** A video of 639x480 uploaded in video mode. *)
Lemma upload_video_resolution_witness :
  ∃ resp,
    fst (upload_file Sample.healthy (Sample.upload "clip.MP4" "video")
           Sample.empty_world) = Ok resp ∧
    dig ["stats"; "resolution"] (body resp) = Some (VStr "638x480").
Proof.
  destruct (upload_file Sample.healthy (Sample.upload "clip.MP4" "video")
              Sample.empty_world) as [[resp|e] w'] eqn:Hrun.
  - pose proof Hrun as Hval. vm_compute in Hval. injection Hval as Hresp _.
    assert (status resp = 200) as Hstatus by (by rewrite <- Hresp).
    destruct (upload_video_resolution Sample.healthy
                (Sample.upload "clip.MP4" "video")
                Sample.empty_world resp w' eq_refl Hrun Hstatus)
      as (file & cap & W & H & _ & [= <-] & [= <-] & [= <-] & Hres).
    exists resp. split; [done|]. exact Hres.
  - vm_compute in Hrun. discriminate.
Defined.

(** ** The video pipeline as a whole *)




(** X19. Whatever happens in it, [process_video] releases the handles it
    has opened before it returns, and it writes to no file but its output
    file; in particular it leaves its input as it is. *)
Theorem process_video_footprint (E : env) (input_path output_path : string)
    (w : world) (r : outcome pyval) (w' : world) :
  process_video E input_path output_path w = (r, w') →
  handles w' = handles w ∧
  (∀ p, p ≠ output_path → fs w' !! p = fs w !! p) ∧
  (input_path ≠ output_path → fs w' !! input_path = fs w !! input_path).
Proof.
  intros Hrun. split; [by apply (process_video_handles _ _ _ _ _ _ Hrun)|].
  split; [by apply (process_video_fs _ _ _ _ _ _ Hrun)|].
  by apply (process_video_fs _ _ _ _ _ _ Hrun).
Qed.

Lemma process_video_footprint_witness :
  handles (snd (process_video Sample.failing_video "in.mp4" "out.mp4"
                  MoreSamples.used_world)) = 0%nat ∧
  fs (snd (process_video Sample.failing_video "in.mp4" "out.mp4"
             MoreSamples.used_world)) !! "static/uploads/old.png" =
    Some [Byte.x01].
Proof.
  destruct (process_video_footprint Sample.failing_video "in.mp4" "out.mp4"
              MoreSamples.used_world
              (fst (process_video Sample.failing_video "in.mp4" "out.mp4"
                      MoreSamples.used_world))
              (snd (process_video Sample.failing_video "in.mp4" "out.mp4"
                      MoreSamples.used_world)))
    as (Hhandles & Hfs & _); [reflexivity|].
  split; [exact Hhandles|]. by rewrite Hfs.
Defined.

(** ** Scoped handles *)

(** X20. A capture context around a writer context releases both handles
    on every way out, for a body that itself leaves the handles alone:
    when a constructor raises, the body does not run and the exception
    goes to the caller (the capture already opened is released); otherwise
    the outcome of the body, a return or a raise, is the outcome of the
    [with]. *)
Theorem scoped_contexts_release {A} (E : env)
    (VideoWriter : string → string → pyfloat → Z * Z → outcome unit)
    (input_path output_path fourcc : string) (fps : pyfloat) (frame_size : Z * Z)
    (body : capture → string → M world A)
    (w : world) (r : outcome A) (w' : world) :
  (∀ cap out w1 r1 w2, body cap out w1 = (r1, w2) → handles w2 = handles w1) →
  video_capture_context E input_path
    (λ cap, video_writer_context VideoWriter output_path fourcc fps frame_size
              (λ out, body cap out)) w = (r, w') →
  handles w' = handles w ∧
  match cv_VideoCapture E (fs w !! input_path) with
  | Raise e => r = Raise e ∧ w' = w
  | Ok cap =>
      match VideoWriter output_path fourcc fps frame_size with
      | Raise e => r = Raise e ∧ fs w' = fs w
      | Ok _ =>
          r = fst (body cap output_path
                     (acquire (set_fs <[output_path := []]> (acquire w))))
      end
  end.
Proof.
  intros Hbody. unfold video_capture_context, video_writer_context, try_finally.
  destruct (cv_VideoCapture _ _) as [cap|e]; [|by intros [= <- <-]].
  destruct (VideoWriter _ _ _ _) as [[]|e]; [|by intros [= <- <-]].
  destruct (body _ _ _) as [r1 w2] eqn:Hrun. intros [= <- <-].
  apply Hbody in Hrun. simpl in *. by rewrite Hrun.
Qed.

Lemma scoped_contexts_release_witness :
  handles (snd (video_capture_context Sample.healthy "in.mp4"
                  (λ cap, video_writer_context (λ _ _ _ _, Ok tt) "out.mp4" "avc1"
                            (Float 4629137466983448576) (638, 480)
                            (λ out, MoreSamples.count_frames cap out))
                  MoreSamples.used_world)) = 0%nat ∧
  fst (video_capture_context Sample.healthy "in.mp4"
         (λ cap, video_writer_context (λ _ _ _ _, Ok tt) "out.mp4" "avc1"
                   (Float 4629137466983448576) (638, 480)
                   (λ out, MoreSamples.count_frames cap out))
         MoreSamples.used_world) = Ok 2%nat.
Proof.
  destruct (scoped_contexts_release Sample.healthy (λ _ _ _ _, Ok tt)
              "in.mp4" "out.mp4" "avc1" (Float 4629137466983448576) (638, 480)
              MoreSamples.count_frames MoreSamples.used_world
              (Ok 2%nat)
              (snd (video_capture_context Sample.healthy "in.mp4"
                      (λ cap, video_writer_context (λ _ _ _ _, Ok tt) "out.mp4" "avc1"
                                (Float 4629137466983448576) (638, 480)
                                (λ out, MoreSamples.count_frames cap out))
                      MoreSamples.used_world)))
    as (Hhandles & _).
  - intros cap out w1 r1 w2 [= _ <-]. reflexivity.
  - reflexivity.
  - split; [exact Hhandles|reflexivity].
Defined.

(** ** Files of different requests *)

(** The handler writes to and removes from the paths of its own request
    only. *)
Lemma upload_file_fs (E : env) (req : request) (w : world)
    (r : outcome response) (w' : world) (p : string) :
  upload_file E req w = (r, w') →
  (∀ file, files req !! "file" = Some file →
           p ≠ upload_path_of E file ∧ p ≠ result_path_of E file) →
  fs w' !! p = fs w !! p.
Proof.
  intros Hrun Hp.
  destruct (upload_file_inv _ _ _ _ _ Hrun)
    as [(_ & _ & ->)|(file & Hfile & [(_ & _ & ->)|[(_ & _ & _ & ->)
       |[(e & _ & _ & _ & ->)|[(resp & _ & _ & Hproc & _)
       |(e & w1 & _ & _ & Hproc & _ & ->)]]]])]; try done;
    destruct (Hp file Hfile) as [Hupload Hresult].
  - rewrite (processing_fs _ _ _ _ _ _ _ _ _ Hproc) by done.
    simpl. by rewrite lookup_insert_ne.
  - simpl. rewrite lookup_delete_ne by done.
    rewrite (processing_fs _ _ _ _ _ _ _ _ _ Hproc) by done.
    simpl. by rewrite lookup_insert_ne.
Qed.

(** X21. The handler touches no file but the stored upload and the result
    file of the request: every other path holds after the request what it
    held before. *)
Theorem upload_file_footprint (E : env) (req : request) (w : world)
    (r : outcome response) (w' : world) (p : string) :
  upload_file E req w = (r, w') →
  (∀ file, files req !! "file" = Some file →
           p ≠ upload_path_of E file ∧ p ≠ result_path_of E file) →
  fs w' !! p = fs w !! p.
Proof. apply upload_file_fs. Qed.

Lemma upload_file_footprint_witness :
  fs (snd (upload_file Sample.healthy (Sample.upload "clip.MP4" "video")
             MoreSamples.used_world)) !! "static/uploads/old.png" =
    Some [Byte.x01].
Proof.
  etrans;
    [apply (upload_file_footprint Sample.healthy (Sample.upload "clip.MP4" "video")
              MoreSamples.used_world
              (fst (upload_file Sample.healthy (Sample.upload "clip.MP4" "video")
                      MoreSamples.used_world)))|reflexivity].
  - reflexivity.
  - intros file [= <-]. split; vm_compute; discriminate.
Defined.

(** The stored extension never has a dot. *)
Lemma extension_no_dot (filename : string) :
  PyStr.contains "." (extension filename) = false.
Proof.
  unfold extension. destruct (PyStr.rcut "." filename) as [[pre suf]|] eqn:Hcut;
    [|done].
  apply rcut_Some in Hcut as [_ Hno]. by rewrite contains_dot_lower.
Qed.

(** The stored name determines the identifier it was built from. *)
Lemma stored_name_inj (E1 E2 : env) (file1 file2 : file_storage) :
  stored_name E1 file1 = stored_name E2 file2 → uuid4 E1 = uuid4 E2.
Proof.
  unfold stored_name. intros Heq.
  apply (f_equal (PyStr.rcut ".")) in Heq.
  change (uuid4 E1 +:+ "." +:+ extension (filename file1))
    with (uuid4 E1 +:+ String "." (extension (filename file1))) in Heq.
  change (uuid4 E2 +:+ "." +:+ extension (filename file2))
    with (uuid4 E2 +:+ String "." (extension (filename file2))) in Heq.
  rewrite !rcut_app in Heq by apply extension_no_dot. by injection Heq.
Qed.

Lemma upload_path_inj (a b : string) :
  os_path_join UPLOAD_FOLDER a = os_path_join UPLOAD_FOLDER b → a = b.
Proof.
  unfold os_path_join. destruct a as [|c a], b as [|d b]; simpl; try done.
  - by destruct (Ascii.eqb_spec d "/") as [->|_].
  - by destruct (Ascii.eqb_spec c "/") as [->|_].
  - destruct (Ascii.eqb_spec c "/") as [->|_], (Ascii.eqb_spec d "/") as [->|_];
      simpl; try done. by intros [= -> ->].
Qed.

Lemma result_path_inj (a b : string) :
  os_path_join RESULT_FOLDER ("result_" +:+ a) =
    os_path_join RESULT_FOLDER ("result_" +:+ b) → a = b.
Proof. unfold os_path_join. simpl. intros Heq. injection Heq as Heq. exact Heq. Qed.

Lemma upload_path_ne_result_path_of (a b : string) :
  os_path_join UPLOAD_FOLDER a ≠ os_path_join RESULT_FOLDER ("result_" +:+ b).
Proof.
  unfold os_path_join. destruct a as [|c a]; simpl; [done|].
  by destruct (Ascii.eqb_spec c "/") as [->|_].
Qed.

(** X22. Requests that draw different identifiers do not interfere: after
    a later request with another identifier, whatever its outcome, the
    stored upload and the result file of the earlier request are as the
    earlier request left them. *)
Theorem distinct_identifiers_do_not_interfere (E1 E2 : env) (req2 : request)
    (file1 : file_storage) (w1 : world) (r2 : outcome response) (w2 : world) :
  uuid4 E1 ≠ uuid4 E2 →
  upload_file E2 req2 w1 = (r2, w2) →
  fs w2 !! upload_path_of E1 file1 = fs w1 !! upload_path_of E1 file1 ∧
  fs w2 !! result_path_of E1 file1 = fs w1 !! result_path_of E1 file1.
Proof.
  intros Huuid Hrun.
  assert (∀ file2, stored_name E1 file1 ≠ stored_name E2 file2) as Hname.
  { intros file2 Heq. by apply stored_name_inj in Heq. }
  split; apply (upload_file_fs _ _ _ _ _ _ Hrun); intros file2 _;
    unfold upload_path_of, result_path_of; split.
  - intros Heq. by apply upload_path_inj, Hname in Heq.
  - apply upload_path_ne_result_path_of.
  - apply not_eq_sym, upload_path_ne_result_path_of.
  - intros Heq. by apply result_path_inj, Hname in Heq.
Qed.

(** An image is uploaded and answered 200; a video uploaded afterwards
    under another identifier fails in its second frame. *)
Lemma distinct_identifiers_do_not_interfere_witness :
  fs (snd (upload_file MoreSamples.later (Sample.upload "clip.MP4" "video")
             (snd (upload_file Sample.healthy (Sample.upload "photo.JPG" "image")
                     Sample.empty_world))))
    !! upload_path_of Sample.healthy (MoreSamples.the_file "photo.JPG") =
    Some [Byte.x89; Byte.x50] ∧
  fs (snd (upload_file MoreSamples.later (Sample.upload "clip.MP4" "video")
             (snd (upload_file Sample.healthy (Sample.upload "photo.JPG" "image")
                     Sample.empty_world))))
    !! result_path_of Sample.healthy (MoreSamples.the_file "photo.JPG") =
    Some [Byte.x2a].
Proof.
  destruct (distinct_identifiers_do_not_interfere Sample.healthy MoreSamples.later
              (Sample.upload "clip.MP4" "video") (MoreSamples.the_file "photo.JPG")
              (snd (upload_file Sample.healthy (Sample.upload "photo.JPG" "image")
                      Sample.empty_world))
              (fst (upload_file MoreSamples.later (Sample.upload "clip.MP4" "video")
                      (snd (upload_file Sample.healthy
                              (Sample.upload "photo.JPG" "image")
                              Sample.empty_world))))
              (snd (upload_file MoreSamples.later (Sample.upload "clip.MP4" "video")
                      (snd (upload_file Sample.healthy
                              (Sample.upload "photo.JPG" "image")
                              Sample.empty_world)))))
    as [Hupload Hresult].
  - vm_compute. discriminate.
  - reflexivity.
  - split; [etrans; [exact Hupload|]|etrans; [exact Hresult|]];
      vm_compute; reflexivity.
Defined.
